(** * rag-fastapi: document ingestion and semantic retrieval

    A shallow embedding of [file_parser.py], [background_tasks.py], [db.py]
    and [app.py].  Python code that raises becomes a value of [outcome];
    code that touches the file system, the SQLAlchemy session, the embedding
    service or the log of library calls runs in the state-and-exception
    monad [M] over [world].  The third-party libraries (NLTK, PyPDF2,
    PyMuPDF + Tesseract, the OpenAI client, PostgreSQL/pgvector) are not part
    of the repository: they are Section variables, with only the contracts
    the program relies on stated as hypotheses. *)

From Stdlib Require Import ZArith Ascii String Sorting.Sorted.
From stdpp Require Import base tactics option list numbers strings gmap sorting.

Local Open Scope Z_scope.

(** ** Python values that the program manipulates *)

(** The exception classes that occur in the sources (raised by the program
    itself or by the libraries it calls).  All of them derive from
    [Exception], so an [except Exception] clause catches every one. *)
Inductive exn :=
| ValueError (msg : string)
| FileNotFoundError (msg : string)
| IsADirectoryError (msg : string)
| FileExistsError (msg : string)
| UnicodeDecodeError
| LibraryError (lib : string)
| HTTPException (status_code : Z) (detail : string).

Inductive outcome (A : Type) :=
| Returns (a : A)
| Raises (e : exn).
Arguments Returns {A} a.
Arguments Raises {A} e.

(** [str.split(sep)] with a one-character separator: never the empty list. *)
Fixpoint py_split (sep : ascii) (s : string) : list string :=
  match s with
  | EmptyString => [EmptyString]
  | String c s' =>
      if Ascii.eqb c sep then EmptyString :: py_split sep s'
      else match py_split sep s' with
           | [] => [String c EmptyString]
           | hd :: tl => String c hd :: tl
           end
  end.

(** [s.split('.')[-1]] *)
Definition last_dot_segment (s : string) : string :=
  default EmptyString (last (py_split "."%char s)).

(** [sep.join(l)] *)
Fixpoint py_join (sep : string) (l : list string) : string :=
  match l with
  | [] => EmptyString
  | [x] => x
  | x :: rest => x +:+ sep +:+ py_join sep rest
  end.

(** [len(range(start, stop, step))] for a non-zero step, as CPython computes it. *)
Definition py_range_len (start stop step : Z) : Z :=
  if 0 <? step
  then (if start <? stop then (stop - start - 1) / step + 1 else 0)
  else (if stop <? start then (start - stop - 1) / (- step) + 1 else 0).

(** [range(start, stop, step)]: a zero step raises [ValueError]. *)
Definition py_range (start stop step : Z) : outcome (list Z) :=
  if step =? 0 then Raises (ValueError "range() arg 3 must not be zero")
  else Returns ((λ k : nat, start + Z.of_nat k * step) <$>
                  seq 0 (Z.to_nat (py_range_len start stop step))).

(** A slice bound is counted from the end when negative, then clamped. *)
Definition py_slice_index (n i : Z) : Z :=
  if i <? 0 then Z.max (i + n) 0 else Z.min i n.

(** [l[lo:hi]] *)
Definition py_slice {A} (l : list A) (lo hi : Z) : list A :=
  let n := Z.of_nat (length l) in
  let lo' := py_slice_index n lo in
  let hi' := py_slice_index n hi in
  take (Z.to_nat (hi' - lo')) (drop (Z.to_nat lo') l).

(** [os.path.isabs(p)] on POSIX. *)
Definition os_path_isabs (p : string) : bool :=
  match p with
  | String c _ => Ascii.eqb c "/"%char
  | EmptyString => false
  end.

(** [os.path.join(a, b)] on POSIX. *)
Definition os_path_join (a b : string) : string :=
  if os_path_isabs b then b
  else if decide (a = EmptyString) then b
  else if decide (last (list_ascii_of_string a) = Some "/"%char) then a +:+ b
  else a +:+ "/" +:+ b.

(** A relative name whose components are all proper names: none is
    empty, [.] or [..].  For such a name the string [sources/<name>] is the
    path as the operating system resolves it. *)
Definition plain_name (name : string) : Prop :=
  forallb (λ c, negb (bool_decide (c ∈ [EmptyString; "."; ".."])))
    (py_split "/"%char name) = true.

(** The directory part of a path: what precedes its last ['/']. *)
Definition parent_dir (path : string) : string :=
  py_join "/" (removelast (py_split "/"%char path)).

(** [str(e)] *)
Definition exn_str (e : exn) : string :=
  match e with
  | ValueError msg | FileNotFoundError msg | IsADirectoryError msg
  | FileExistsError msg | LibraryError msg | HTTPException _ msg => msg
  | UnicodeDecodeError => "codec can't decode bytes"
  end.

(** ** db.py: the two tables *)

Module File.
Record t := mk {
  file_id : Z;
  file_name : string;
  file_content : string
}.
End File.

Module FileChunk.
Record t {vector : Type} := mk {
  chunk_id : Z;
  file_id : Z;
  chunk_text : string;
  embedding_vector : vector
}.
Arguments t : clear implicits.
Arguments mk {vector}.
End FileChunk.

(** An object handed to [db.add] and not yet flushed: it has no primary key. *)
Inductive pending {vector : Type} :=
| new_File (file_name file_content : string)
| new_FileChunk (file_id : Z) (chunk_text : string) (embedding_vector : vector).
Arguments pending : clear implicits.

(** The committed rows of both tables, the serial counters of their primary
    keys, and the pending objects of the request's session. *)
Record db_state {vector : Type} := {
  files : list File.t;
  file_chunks : list (FileChunk.t vector);
  files_seq : Z;
  file_chunks_seq : Z;
  session_new : list (pending vector)
}.
Arguments db_state : clear implicits.

(** ** The world the program runs in *)

Inductive node := RegularFile (data : string) | Directory.

Global Instance node_eq_dec : EqDecision node.
Proof. solve_decision. Defined.

Inductive parser_class := TxtParser | PdfParser.

Global Instance parser_class_eq_dec : EqDecision parser_class.
Proof. solve_decision. Defined.

(** [TextProcessor] without its [db] field: there is one session in [world]. *)
Record TextProcessor := {
  file_id : Z;
  chunk_size : Z
}.

(** Calls that leave the process, in the order they are made. *)
Inductive event :=
| EvMakedirs (path : string)
| EvPathExists (path : string)
| EvOpen (path mode : string)
| EvDecrypt
| EvExtractText (page_num : nat)
| EvOcrPage (page_num : nat)
| EvEmbeddingsCreate (input : string)
| EvSessionAdd
| EvSessionCommit.

Record world {vector : Type} := {
  fs : gmap string node;
  parsers : gmap string parser_class;
  db : db_state vector;
  background_tasks : list (TextProcessor * string);
  api_calls : nat;
  trace : list event
}.
Arguments world : clear implicits.

(** What PyPDF2 makes of a file: [decrypt] is the outcome of
    [reader.decrypt('')], [pages] that of reading [reader.pages] at the point
    where [PdfParser.parse] does, [extract_text] that of
    [page.extract_text()]. *)
Record pdf_page := { extract_text : outcome string }.
Record pdf_reader := {
  is_encrypted : bool;
  decrypt : outcome unit;
  pages : outcome (list pdf_page)
}.

(** ** The partition the design describes *)

(** Cut the sequence into consecutive groups of [n], the last one holding
    what remains.  [fuel] bounds the number of groups; the length of the
    sequence is always enough. *)
Fixpoint groups_upto {A} (fuel n : nat) (l : list A) : list (list A) :=
  match fuel, l with
  | O, _ | _, [] => []
  | S fuel', _ => take n l :: groups_upto fuel' n (drop n l)
  end.

Definition groups_of {A} (n : nat) (l : list A) : list (list A) :=
  groups_upto (length l) n l.

(** The chunk sequence of the design for a positive chunk size. *)
Definition reference_chunks (sentences : list string) (n : nat) : list string :=
  py_join " " <$> groups_of n sentences.

(** [ceil(a / b)] for a positive [b]. *)
Definition ceil_div (a b : Z) : Z := (a + b - 1) / b.

(** ** Concrete libraries and data to run the model on *)

Module Sample.
(** A sentence ends at each full stop; the blank after it is dropped. *)
Fixpoint split_after_stop (cur : string) (s : string) : list string :=
  match s with
  | EmptyString => if decide (cur = EmptyString) then [] else [cur]
  | String c s' =>
      if Ascii.eqb c "."%char then
        (cur +:+ ".") ::
        split_after_stop EmptyString
          (match s' with String " "%char s'' => s'' | _ => s' end)
      else split_after_stop (cur +:+ String c EmptyString) s'
  end.

Definition sent_tokenize : string → list string :=
  split_after_stop EmptyString.

(** Vectors with integer coordinates, compared by the square of their
    Euclidean distance. *)
Definition l2_distance (u v : list Z) : Z :=
  foldr Z.add 0 (zip_with (λ x y, (x - y) * (x - y)) u v).

Definition closer (q : list Z) : relation (FileChunk.t (list Z)) :=
  λ a b, l2_distance (FileChunk.embedding_vector a) q
         ≤ l2_distance (FileChunk.embedding_vector b) q.

Global Instance closer_dec q : RelDecision (closer q).
Proof. intros a b. unfold closer. apply _. Defined.

Definition selected (file_id : Z) (table : list (FileChunk.t (list Z))) :=
  filter (λ c, FileChunk.file_id c = file_id) table.

(** Two executors of the statement of [find_similar_chunks]: a merge sort
    of the selected rows by increasing distance, and a merge sort by
    decreasing distance read backwards. *)
Definition db_scalars (q : list Z) (file_id : Z)
    (table : list (FileChunk.t (list Z))) : list (FileChunk.t (list Z)) :=
  take 10 (merge_sort (closer q) (selected file_id table)).

Definition db_scalars_backward (q : list Z) (file_id : Z)
    (table : list (FileChunk.t (list Z))) : list (FileChunk.t (list Z)) :=
  take 10 (reverse (merge_sort (flip (closer q)) (selected file_id table))).

(** A service that answers every request but the second of a run. *)
Definition embedding_service (n : nat) (input : string) : outcome (list Z) :=
  if decide (n = 1%nat) then Raises (LibraryError "RateLimitError")
  else Returns [Z.of_nat (String.length input); Z.of_nat n].

Definition text_decode (data : string) : outcome string := Returns data.

(** Three documents: a scan of three pages of which the first has a text
    layer, a one-page scan, and an encrypted file that the empty password
    does not open.  Anything else is not a PDF. *)
Definition PdfReader (data : string) : outcome pdf_reader :=
  if decide (data = "scan3") then
    Returns {| is_encrypted := false; decrypt := Returns tt;
               pages := Returns [ {| extract_text := Returns "Intro. " |};
                                  {| extract_text := Returns "" |};
                                  {| extract_text := Returns "" |} ] |}
  else if decide (data = "scan1") then
    Returns {| is_encrypted := false; decrypt := Returns tt;
               pages := Returns [ {| extract_text := Returns "" |} ] |}
  else if decide (data = "locked") then
    Returns {| is_encrypted := true;
               decrypt := Raises (LibraryError "PdfReadError");
               pages := Raises (LibraryError "FileNotDecryptedError") |}
  else Raises (LibraryError "PdfReadError").

(** Tesseract reads page 1 of the three-page scan and fails elsewhere. *)
Definition image_to_string (data : string) (page_num : nat) : outcome string :=
  if decide (data = "scan3" ∧ page_num = 1%nat) then Returns "Scanned text."
  else Raises (LibraryError "TesseractError").

Definition no_rows : db_state (list Z) :=
  {| files := []; file_chunks := []; files_seq := 1; file_chunks_seq := 1;
     session_new := [] |}.

(** Three chunks of file 7, two of them at the same place, and one chunk
    of file 8. *)
Definition some_rows : db_state (list Z) :=
  {| files := [File.mk 7 "notes.txt" "A. B. C."; File.mk 8 "other.txt" "D."];
     file_chunks := [FileChunk.mk 1 7 "A." [3; 0]; FileChunk.mk 2 7 "B." [3; 0];
                     FileChunk.mk 3 8 "D." [0; 0]; FileChunk.mk 4 7 "C." [1; 0]];
     files_seq := 9; file_chunks_seq := 5; session_new := [] |}.

Definition registry : gmap string parser_class :=
  {[ "txt" := TxtParser; "pdf" := PdfParser ]}.

Definition disk : gmap string node :=
  {[ "sources" := Directory;
     "sources/notes.txt" := RegularFile "Old notes.";
     "sources/scan3.pdf" := RegularFile "scan3";
     "sources/scan1.pdf" := RegularFile "scan1";
     "sources/locked.pdf" := RegularFile "locked";
     "sources/broken.pdf" := RegularFile "garbage" ]}.

Definition world_of (d : db_state (list Z)) : world (list Z) :=
  {| fs := disk; parsers := registry; db := d; background_tasks := [];
     api_calls := 0; trace := [] |}.
End Sample.

(** More data to run the model on. *)
Module Sample2.
(** A document of three pages whose second page makes [extract_text]
    raise; everything else is read as in [Sample]. *)
Definition PdfReader (data : string) : outcome pdf_reader :=
  if decide (data = "torn") then
    Returns {| is_encrypted := false; decrypt := Returns tt;
               pages := Returns
                 [ {| extract_text := Returns "First page. " |};
                   {| extract_text := Raises (LibraryError "PdfReadError") |};
                   {| extract_text := Returns "Third page." |} ] |}
  else Sample.PdfReader data.

(** The disk of [Sample] with the torn document, a folder at the place of
    a text file, and a text file outside the folder [sources]. *)
Definition disk : gmap string node :=
  <["sources/torn.pdf" := RegularFile "torn"]>
    (<["sources/folder.txt" := Directory]>
       (<["/srv/motd.txt" := RegularFile "Welcome."]> Sample.disk)).

Definition world_of (d : db_state (list Z)) : world (list Z) :=
  {| fs := disk; parsers := Sample.registry; db := d; background_tasks := [];
     api_calls := 0; trace := [] |}.

(** A process in which [file_parser] has not been imported yet. *)
Definition before_import : world (list Z) :=
  {| fs := Sample.disk; parsers := ∅; db := Sample.no_rows;
     background_tasks := []; api_calls := 0; trace := [] |}.
End Sample2.

Section program.
(** The element type of [Vector(1536)] columns and of embeddings. *)
Context {vector : Type}.
(** [nltk.tokenize.sent_tokenize] *)
Variable sent_tokenize : string → list string.
(** The answer of the embedding service to the [n]-th request of the run. *)
Variable embedding_service : nat → string → outcome vector.
(** [file.read()] on a file opened in text mode: decoding of its bytes. *)
Variable text_decode : string → outcome string.
(** [PyPDF2.PdfReader(file)] on the bytes of a file. *)
Variable PdfReader : string → outcome pdf_reader.
(** Rendering page [n] of the document with these bytes and running
    Tesseract on the image (lines 46-51 of [_ocr_page] after [fitz.open]
    has read the file). *)
Variable image_to_string : string → nat → outcome string.
(** pgvector's [l2_distance] and the order of its results. *)
Context {distance : Type}.
Variable l2_distance : vector → vector → distance.
Variable dist_le : relation distance.
(** The rows PostgreSQL answers to the statement of [find_similar_chunks],
    given the query vector, the file id and the table. *)
Variable db_scalars :
  vector → Z → list (FileChunk.t vector) → list (FileChunk.t vector).

(** *** The monad of effectful code *)

Definition M (A : Type) : Type := world vector → outcome A * world vector.

Definition ret {A} (a : A) : M A := λ w, (Returns a, w).
Definition bind {A B} (m : M A) (k : A → M B) : M B :=
  λ w, match m w with
       | (Returns a, w') => k a w'
       | (Raises e, w') => (Raises e, w')
       end.
Definition raise {A} (e : exn) : M A := λ w, (Raises e, w).
(** [try: m  except Exception as e: handler e] *)
Definition try_except {A} (m : M A) (handler : exn → M A) : M A :=
  λ w, match m w with
       | (Returns a, w') => (Returns a, w')
       | (Raises e, w') => handler e w'
       end.
Definition lift {A} (o : outcome A) : M A := λ w, (o, w).
Definition get : M (world vector) := λ w, (Returns w, w).
Definition modify (f : world vector → world vector) : M unit :=
  λ w, (Returns tt, f w).

Notation "x <- m ;; k" := (bind m (λ x, k))
  (at level 100, m at next level, right associativity).
Notation "m ;;; k" := (bind m (λ _, k))
  (at level 100, right associativity).

Definition set_fs (f : gmap string node → gmap string node) (w : world vector) :=
  {| fs := f (fs w); parsers := parsers w; db := db w;
     background_tasks := background_tasks w; api_calls := api_calls w;
     trace := trace w |}.
Definition set_parsers (f : gmap string parser_class → gmap string parser_class)
    (w : world vector) :=
  {| fs := fs w; parsers := f (parsers w); db := db w;
     background_tasks := background_tasks w; api_calls := api_calls w;
     trace := trace w |}.
Definition set_db (f : db_state vector → db_state vector) (w : world vector) :=
  {| fs := fs w; parsers := parsers w; db := f (db w);
     background_tasks := background_tasks w; api_calls := api_calls w;
     trace := trace w |}.
Definition set_background_tasks
    (f : list (TextProcessor * string) → list (TextProcessor * string))
    (w : world vector) :=
  {| fs := fs w; parsers := parsers w; db := db w;
     background_tasks := f (background_tasks w); api_calls := api_calls w;
     trace := trace w |}.
Definition set_api_calls (f : nat → nat) (w : world vector) :=
  {| fs := fs w; parsers := parsers w; db := db w;
     background_tasks := background_tasks w; api_calls := f (api_calls w);
     trace := trace w |}.
Definition set_trace (f : list event → list event) (w : world vector) :=
  {| fs := fs w; parsers := parsers w; db := db w;
     background_tasks := background_tasks w; api_calls := api_calls w;
     trace := f (trace w) |}.

Definition log (e : event) : M unit := modify (set_trace (λ t, t ++ [e])).

(** [for x in l: body x] *)
Fixpoint for_each {A} (l : list A) (body : A → M unit) : M unit :=
  match l with
  | [] => ret tt
  | x :: l' => body x ;;; for_each l' body
  end.

(** *** The file system: paths are compared as strings; links,
    permissions and path normalisation are left out. *)

Definition os_path_exists (path : string) : M bool :=
  log (EvPathExists path) ;;;
  w <- get ;;
  ret (bool_decide (is_Some (fs w !! path))).

(** [os.makedirs(path, exist_ok=True)] for a path of one component. *)
Definition os_makedirs (path : string) : M unit :=
  log (EvMakedirs path) ;;;
  w <- get ;;
  match fs w !! path with
  | Some Directory => ret tt
  | Some (RegularFile _) => raise (FileExistsError path)
  | None => modify (set_fs (insert path Directory))
  end.

(** [open(path, mode)] for reading, followed by reading all the bytes. *)
Definition open_read (path mode : string) : M string :=
  log (EvOpen path mode) ;;;
  w <- get ;;
  match fs w !! path with
  | Some (RegularFile data) => ret data
  | Some Directory => raise (IsADirectoryError path)
  | None => raise (FileNotFoundError path)
  end.

(** [open(path, "wb+")] followed by writing [data] and closing. *)
Definition open_write (path : string) (data : string) : M unit :=
  log (EvOpen path "wb+") ;;;
  w <- get ;;
  match fs w !! path with
  | Some Directory => raise (IsADirectoryError path)
  | Some (RegularFile _) => modify (set_fs (insert path (RegularFile data)))
  | None =>
      if decide (parent_dir path = EmptyString
                 ∨ fs w !! parent_dir path = Some Directory)
      then modify (set_fs (insert path (RegularFile data)))
      else raise (FileNotFoundError path)
  end.

(** ** file_parser.py *)

(** [PdfParser._ocr_page] *)
Definition _ocr_page (filepath : string) (page_num : nat) : M string :=
  log (EvOcrPage page_num) ;;;
  try_except
    (data <- open_read filepath "rb" ;;
     lift (image_to_string data page_num))
    (λ _, ret "Error in OCR processing").

(** The loop of lines 33-38, from page [page_num] on, over the pages that
    remain; [content] is the text accumulated so far. *)
Fixpoint pdf_pages_loop (filepath : string) (page_num : nat)
    (remaining : list pdf_page) (content : string) : M string :=
  match remaining with
  | [] => ret content
  | page :: remaining' =>
      log (EvExtractText page_num) ;;;
      page_content <- lift (extract_text page) ;;
      page_content <-
        (if decide (page_content = EmptyString)
         then _ocr_page filepath page_num
         else ret page_content) ;;
      pdf_pages_loop filepath (S page_num) remaining' (content +:+ page_content)
  end.

(** [PdfParser.parse].  The inner [return] of line 31 leaves the function:
    the decryption block yields [Some s] for [return s]. *)
Definition PdfParser_parse (filepath : string) : M string :=
  try_except
    (let content := EmptyString in
     data <- open_read filepath "rb" ;;
     reader <- lift (PdfReader data) ;;
     returned <-
       (if is_encrypted reader
        then try_except
               (log EvDecrypt ;;; lift (decrypt reader) ;;; ret None)
               (λ _, ret (Some "Unable to decrypt PDF"))
        else ret None) ;;
     match returned with
     | Some s => ret s
     | None =>
         reader_pages <- lift (pages reader) ;;
         pdf_pages_loop filepath 0 reader_pages content
     end)
    (λ _, ret "Error processing PDF file").

(** [TxtParser.parse] *)
Definition TxtParser_parse (filepath : string) : M string :=
  try_except
    (data <- open_read filepath "r" ;;
     lift (text_decode data))
    (λ _, ret "Error reading text file").

(** [parser.parse(filepath)] on an instance of the class. *)
Definition BaseParser_parse (parser : parser_class) (filepath : string)
  : M string :=
  match parser with
  | TxtParser => TxtParser_parse filepath
  | PdfParser => PdfParser_parse filepath
  end.

(** [ParserFactory.register_parser] *)
Definition register_parser (extension : string) (parser : parser_class)
  : M unit :=
  modify (set_parsers (insert extension parser)).

(** [ParserFactory.get_parser] *)
Definition get_parser (extension : string) : M parser_class :=
  w <- get ;;
  match parsers w !! extension with
  | None => raise (ValueError ("No parser found for extension: " +:+ extension))
  | Some parser => ret parser
  end.

Record FileParser := {
  filepath : string;
  parser : parser_class
}.

(** [FileParser._get_parser] *)
Definition _get_parser (filepath : string) : M parser_class :=
  let extension := last_dot_segment filepath in
  w <- get ;;
  if decide (parsers w !! extension = None)
  then raise (ValueError ("Unsupported file extension: " +:+ extension))
  else get_parser extension.

(** [FileParser.__init__] *)
Definition FileParser_init (filepath : string) : M FileParser :=
  parser <- _get_parser filepath ;;
  ret {| filepath := filepath; parser := parser |}.

(** [FileParser.parse] *)
Definition FileParser_parse (self : FileParser) : M string :=
  found <- os_path_exists (filepath self) ;;
  if negb found
  then raise (FileNotFoundError ("File not found: " +:+ filepath self))
  else BaseParser_parse (parser self) (filepath self).

(** The module body: lines 85-86. *)
Definition file_parser_import : M unit :=
  register_parser "txt" TxtParser ;;;
  register_parser "pdf" PdfParser.

(** ** The SQLAlchemy session *)

Definition set_session_new
    (f : list (pending vector) → list (pending vector)) (d : db_state vector) :=
  {| files := files d; file_chunks := file_chunks d;
     files_seq := files_seq d; file_chunks_seq := file_chunks_seq d;
     session_new := f (session_new d) |}.

(** The INSERT of one pending object: the row gets the next serial key. *)
Definition flush_one (d : db_state vector) (obj : pending vector)
  : db_state vector :=
  match obj with
  | new_File name content =>
      {| files := files d ++ [File.mk (files_seq d) name content];
         file_chunks := file_chunks d;
         files_seq := files_seq d + 1;
         file_chunks_seq := file_chunks_seq d;
         session_new := session_new d |}
  | new_FileChunk fid text v =>
      {| files := files d;
         file_chunks := file_chunks d ++ [FileChunk.mk (file_chunks_seq d) fid text v];
         files_seq := files_seq d;
         file_chunks_seq := file_chunks_seq d + 1;
         session_new := session_new d |}
  end.

(** The primary keys a flush gives to the objects, in the order of [db.add]. *)
Fixpoint primary_keys (fseq cseq : Z) (objs : list (pending vector)) : list Z :=
  match objs with
  | [] => []
  | new_File _ _ :: objs' => fseq :: primary_keys (fseq + 1) cseq objs'
  | new_FileChunk _ _ _ :: objs' => cseq :: primary_keys fseq (cseq + 1) objs'
  end.

Definition flush (d : db_state vector) : db_state vector :=
  set_session_new (λ _, []) (fold_left flush_one (session_new d) d).

(** [db.add(obj)]: the result is the position of the object among the
    pending ones, which stands for its identity. *)
Definition db_add (obj : pending vector) : M nat :=
  log EvSessionAdd ;;;
  w <- get ;;
  modify (set_db (set_session_new (λ l, l ++ [obj]))) ;;;
  ret (length (session_new (db w))).

(** [db.commit()] when PostgreSQL accepts every pending object: the
    transaction that inserts them.  The keys that SQLAlchemy writes into
    the objects are returned.  [db_commit_checked] below is the commit of a
    session that may hold an object PostgreSQL rejects. *)
Definition db_commit : M (list Z) :=
  log EvSessionCommit ;;;
  w <- get ;;
  modify (set_db flush) ;;;
  ret (primary_keys (files_seq (db w)) (file_chunks_seq (db w))
         (session_new (db w))).

(** What PostgreSQL accepts as a text value: no NUL character. *)
Definition text_accepted (s : string) : bool :=
  forallb (λ c, negb (Ascii.eqb c Ascii.zero)) (list_ascii_of_string s).

(** What PostgreSQL accepts as a row of [files]: [file_name] is a
    [String(255)] (db.py line 48), and both columns are text values. *)
Definition files_row_accepted (file_name file_content : string) : bool :=
  (String.length file_name <=? 255)%nat
  && text_accepted file_name && text_accepted file_content.

(** What PostgreSQL accepts of the pending objects of a session: the rows
    of [files] as above; of a row of [file_chunks], a text value and a
    [file_id] that is the key of a row of [files] (db.py line 55), one of
    this transaction included. *)
Definition pending_accepted (d : db_state vector) : bool :=
  forallb (λ obj, match obj with
                  | new_File name content => files_row_accepted name content
                  | new_FileChunk fid text _ =>
                      text_accepted text
                      && bool_decide (fid ∈ File.file_id <$> files (flush d))
                  end) (session_new d).

(** [db.commit()] of a session that may hold a row PostgreSQL rejects, as
    at line 58 of [app.py], where the name and the text come from the
    request: the INSERT then raises, the transaction is rolled back and the
    pending objects leave the session.  ([chunk_and_embed] commits chunks
    cut from a text that has been stored by this commit before: its
    [db.commit()] is [db_commit].)  Lost connections are left out, and so
    are the values that a rejected INSERT has drawn from the sequences. *)
Definition db_commit_checked : M (list Z) :=
  w <- get ;;
  if pending_accepted (db w) then db_commit
  else
    log EvSessionCommit ;;;
    modify (set_db (set_session_new (λ _, []))) ;;;
    raise (LibraryError "DataError").

(** ** background_tasks.py *)

(** [client.embeddings.create(input=..., model=...)] and
    [response.data[0].embedding] *)
Definition embeddings_create (input : string) : M vector :=
  log (EvEmbeddingsCreate input) ;;;
  w <- get ;;
  modify (set_api_calls S) ;;;
  lift (embedding_service (api_calls w) input).

(** The sentence groups [sentences[i:i + chunk_size]] of the comprehension
    of lines 26-27. *)
Definition sentence_slices (self : TextProcessor) (sentences : list string)
  : outcome (list (list string)) :=
  match py_range 0 (Z.of_nat (length sentences)) (chunk_size self) with
  | Raises e => Raises e
  | Returns idx =>
      Returns ((λ i, py_slice sentences i (i + chunk_size self)) <$> idx)
  end.

(** The list [chunks] of [chunk_and_embed]: lines 23-27. *)
Definition chunks_of (self : TextProcessor) (text : string)
  : outcome (list string) :=
  let sentences := sent_tokenize text in
  match sentence_slices self sentences with
  | Raises e => Raises e
  | Returns groups => Returns (py_join " " <$> groups)
  end.

(** The body of the loop of lines 29-42. *)
Definition embed_and_add (self : TextProcessor) (chunk : string) : M unit :=
  embeddings <- embeddings_create chunk ;;
  db_add (new_FileChunk (file_id self) chunk embeddings) ;;;
  ret tt.

(** [TextProcessor.chunk_and_embed] *)
Definition chunk_and_embed (self : TextProcessor) (text : string) : M unit :=
  chunks <- lift (chunks_of self text) ;;
  for_each chunks (embed_and_add self) ;;;
  db_commit ;;;
  ret tt.

(** ** app.py *)

(** [background_tasks.add_task(TextProcessor(db, file_id).chunk_and_embed, text)] *)
Definition add_task (task : TextProcessor) (text : string) : M unit :=
  modify (set_background_tasks (λ l, l ++ [(task, text)])).

(** [upload_file]: [filename] is [file.filename], [uploaded] the bytes that
    [await file.read()] yields. *)
Definition upload_file (filename uploaded : string)
  : M (list (string * string)) :=
  let allowed_extensions := ["txt"; "pdf"] in
  let file_extension := last_dot_segment filename in
  if decide (file_extension ∉ allowed_extensions)
  then raise (HTTPException 400 "File type not allowed")
  else
    let folder := "sources" in
    try_except
      (os_makedirs folder ;;;
       let file_location := os_path_join folder filename in
       content_parser <- FileParser_init file_location ;;
       file_text_content <- FileParser_parse content_parser ;;
       let file_content := uploaded in
       open_write file_location file_content ;;;
       new_file <- db_add (new_File filename file_text_content) ;;
       keys <- db_commit_checked ;;
       new_file_id <-
         match keys !! new_file with
         | Some key => ret key
         | None => raise (LibraryError "InvalidRequestError")
         end ;;
       add_task {| file_id := new_file_id; chunk_size := 2 |}
                file_text_content ;;;
       ret [("info", "File saved"); ("filename", filename)])
      (λ _, raise (HTTPException 500 "Error saving file")).

(** The order of [.order_by(FileChunk.embedding_vector.l2_distance(q))]. *)
Definition by_distance (q : vector) : relation (FileChunk.t vector) :=
  λ a b, dist_le (l2_distance (FileChunk.embedding_vector a) q)
                 (l2_distance (FileChunk.embedding_vector b) q).

(** What SQL promises of
    [select(FileChunk).where(FileChunk.file_id == file_id)
       .order_by(...l2_distance(q)).limit(10)]:
    the first ten rows of some ordering of the selected rows by the sort
    key.  The statement has no other sort key, and SQL leaves the order of
    rows with equal keys to the executor. *)
Definition similar_chunks_query (file_id : Z) (q : vector)
    (table rows : list (FileChunk.t vector)) : Prop :=
  ∃ ordered,
    ordered ≡ₚ filter (λ c, FileChunk.file_id c = file_id) table
    ∧ Sorted (by_distance q) ordered
    ∧ rows = take 10 ordered.

(** [find_similar_chunks] *)
Definition find_similar_chunks (file_id : Z) (question : string)
  : M (list (Z * string)) :=
  try_except
    (question_embedding <- embeddings_create question ;;
     w <- get ;;
     let similar_chunks :=
       db_scalars question_embedding file_id (file_chunks (db w)) in
     let formatted_response :=
       (λ chunk, (FileChunk.chunk_id chunk, FileChunk.chunk_text chunk))
         <$> similar_chunks in
     ret formatted_response)
    (λ e, raise (HTTPException 500 (exn_str e))).


(** ** Vocabulary of the statements *)

(** The world after more calls have been made. *)
Definition add_trace (evs : list event) (w : world vector) : world vector :=
  set_trace (λ t, t ++ evs) w.

(** What [_ocr_page] returns on a file with these bytes. *)
Definition ocr_text (data : string) (page_num : nat) : string :=
  match image_to_string data page_num with
  | Returns t => t
  | Raises _ => "Error in OCR processing"
  end.

(** The text layer of a page whose extraction does not raise. *)
Definition direct_text (page : pdf_page) : string :=
  match extract_text page with
  | Returns t => t
  | Raises _ => EmptyString
  end.

(** What a page adds to the document text. *)
Definition page_text (data : string) (page_num : nat) (page : pdf_page)
  : string :=
  if decide (direct_text page = EmptyString)
  then ocr_text data page_num
  else direct_text page.

(** The calls made for a page. *)
Definition page_events (filepath : string) (page_num : nat) (page : pdf_page)
  : list event :=
  EvExtractText page_num ::
  (if decide (direct_text page = EmptyString)
   then [EvOcrPage page_num; EvOpen filepath "rb"]
   else []).

Fixpoint page_texts (data : string) (page_num : nat) (ps : list pdf_page)
  : list string :=
  match ps with
  | [] => []
  | page :: ps' => page_text data page_num page :: page_texts data (S page_num) ps'
  end.

Fixpoint pages_events (filepath : string) (page_num : nat) (ps : list pdf_page)
  : list event :=
  match ps with
  | [] => []
  | page :: ps' =>
      page_events filepath page_num page ++ pages_events filepath (S page_num) ps'
  end.

(** Texts put end to end, nothing between them. *)
Definition concat_text (l : list string) : string :=
  foldr String.append EmptyString l.

(** The call made to open an encrypted document. *)
Definition decrypt_events (reader : pdf_reader) : list event :=
  if is_encrypted reader then [EvDecrypt] else [].

(** A PDF that opens: the file is there, PyPDF2 accepts it, the empty
    password opens it if it is encrypted, and every page gives up its text
    layer without raising. *)
Definition readable_pdf (w : world vector) (filepath data : string)
    (reader : pdf_reader) (ps : list pdf_page) : Prop :=
  fs w !! filepath = Some (RegularFile data)
  ∧ PdfReader data = Returns reader
  ∧ (is_encrypted reader = true → decrypt reader = Returns tt)
  ∧ pages reader = Returns ps
  ∧ Forall (λ page, ∃ t, extract_text page = Returns t) ps.

(** The rows that a flush inserts for chunks with these texts and
    vectors, from the serial key [key] on. *)
Fixpoint chunk_rows (key file_id : Z) (cvs : list (string * vector))
  : list (FileChunk.t vector) :=
  match cvs with
  | [] => []
  | (chunk, v) :: cvs' =>
      FileChunk.mk key file_id chunk v :: chunk_rows (key + 1) file_id cvs'
  end.

(** The pending objects that the loop of [chunk_and_embed] adds. *)
Definition pending_chunks (file_id : Z) (cvs : list (string * vector))
  : list (pending vector) :=
  (λ cv, new_FileChunk file_id cv.1 cv.2) <$> cvs.

(** The service answers the requests for [chunks], made from request
    number [n] on, with the vectors [vs]. *)
Definition embedded (n : nat) (chunks : list string) (vs : list vector) : Prop :=
  length vs = length chunks
  ∧ ∀ i chunk v, chunks !! i = Some chunk → vs !! i = Some v →
      embedding_service (n + i) chunk = Returns v.

(** Code that only makes calls: it leaves the world as it is but for the
    trace. *)
Definition traces_only {A} (m : M A) : Prop :=
  ∀ w, ∃ r evs, m w = (r, add_trace evs w).

(** The distance of a stored chunk to the query vector. *)
Definition distance_to (q : vector) (c : FileChunk.t vector) : distance :=
  l2_distance (FileChunk.embedding_vector c) q.

(** The rows of the table that a document owns. *)
Definition owned_by (file_id : Z) (table : list (FileChunk.t vector))
  : list (FileChunk.t vector) :=
  filter (λ c, FileChunk.file_id c = file_id) table.

(** The entry of the response for a row. *)
Definition formatted (c : FileChunk.t vector) : Z * string :=
  (FileChunk.chunk_id c, FileChunk.chunk_text c).

(** Rows at the same distance come in the order of their identifiers. *)
Definition ties_by_chunk_id (q : vector) (rows : list (FileChunk.t vector))
  : Prop :=
  ∀ i j a b, (i < j)%nat → rows !! i = Some a → rows !! j = Some b →
    distance_to q a = distance_to q b →
    FileChunk.chunk_id a < FileChunk.chunk_id b.

(** [FileParser(path).parse()], the two calls of lines 44-45 of [app.py]. *)
Definition parse_path (path : string) : M string :=
  content_parser <- FileParser_init path ;;
  FileParser_parse content_parser.

(** The calls that the loop of [chunk_and_embed] makes for these chunks when
    every embedding request is answered. *)
Definition chunk_events (chunks : list string) : list event :=
  chunks ≫= λ chunk, [EvEmbeddingsCreate chunk; EvSessionAdd].

(** The database after the pending objects [objs] have been inserted. *)
Definition flushed (objs : list (pending vector)) (d : db_state vector)
  : db_state vector :=
  fold_left flush_one objs d.

(** The primary keys of both tables are below the serial counters and no
    key occurs twice. *)
Definition keys_fresh (d : db_state vector) : Prop :=
  Forall (λ f, File.file_id f < files_seq d) (files d)
  ∧ Forall (λ c, FileChunk.chunk_id c < file_chunks_seq d) (file_chunks d)
  ∧ NoDup (File.file_id <$> files d)
  ∧ NoDup (FileChunk.chunk_id <$> file_chunks d).

(** * Properties *)

(** ** Python primitives *)

Lemma py_split_nonempty sep s : py_split sep s ≠ [].
Proof.
  destruct s as [|c s]; simpl; [done|].
  destruct (Ascii.eqb c sep); [done|]. by destruct (py_split sep s).
Qed.

Lemma py_slice_nonneg {A} (l : list A) (lo hi : Z) :
  0 ≤ lo ≤ hi →
  py_slice l lo hi = take (Z.to_nat (hi - lo)) (drop (Z.to_nat lo) l).
Proof.
  intros [Hlo Hhi]. unfold py_slice, py_slice_index.
  destruct (Z.ltb_spec lo 0) as [|_]; [lia|].
  destruct (Z.ltb_spec hi 0) as [|_]; [lia|].
  destruct (Z_le_gt_dec (Z.of_nat (length l)) lo) as [Hout|Hin].
  - rewrite (Z.min_r lo) by lia.
    rewrite !(drop_ge l) by lia. by rewrite !take_nil.
  - rewrite (Z.min_l lo) by lia.
    destruct (Z_le_gt_dec hi (Z.of_nat (length l))) as [Hle|Hgt].
    + by rewrite Z.min_l by lia.
    + rewrite Z.min_r by lia.
      rewrite !take_ge; [done| |]; rewrite length_drop; lia.
Qed.

Lemma py_range_len_step (len : nat) (N : Z) :
  0 < N → (0 < len)%nat →
  Z.to_nat (py_range_len 0 (Z.of_nat len) N)
  = S (Z.to_nat (py_range_len 0 (Z.of_nat (len - Z.to_nat N)) N)).
Proof.
  intros HN Hlen. unfold py_range_len.
  destruct (Z.ltb_spec 0 N) as [_|]; [|lia].
  destruct (Z.ltb_spec 0 (Z.of_nat len)) as [_|]; [|lia].
  destruct (Z_le_gt_dec (Z.of_nat len) N) as [Hsmall|Hbig].
  - replace (len - Z.to_nat N)%nat with 0%nat by lia. simpl.
    rewrite Z.sub_0_r, Z.div_small by lia. reflexivity.
  - destruct (Z.ltb_spec 0 (Z.of_nat (len - Z.to_nat N))) as [_|]; [|lia].
    replace (Z.of_nat len - 0 - 1)
      with (Z.of_nat (len - Z.to_nat N) - 0 - 1 + 1 * N) by lia.
    rewrite Z.div_add by lia.
    assert (0 ≤ (Z.of_nat (len - Z.to_nat N) - 0 - 1) / N)
      by (apply Z.div_pos; lia).
    lia.
Qed.

Lemma py_range_len_empty (N : Z) : 0 < N → py_range_len 0 0 N = 0.
Proof.
  intros HN. unfold py_range_len.
  by destruct (Z.ltb_spec 0 N) as [_|]; [|lia].
Qed.

Lemma py_range_len_ceil (len N : Z) :
  0 ≤ len → 0 < N → py_range_len 0 len N = ceil_div len N.
Proof.
  intros Hlen HN. unfold py_range_len, ceil_div.
  destruct (Z.ltb_spec 0 N) as [_|]; [|lia].
  destruct (Z.ltb_spec 0 len) as [Hpos|Hzero].
  - replace (len + N - 1) with (len - 0 - 1 + 1 * N) by lia.
    by rewrite Z.div_add by lia.
  - replace len with 0 by lia. by rewrite Z.div_small by lia.
Qed.

Lemma ceil_div_bounds (a b : Z) :
  0 < b → ceil_div a b * b - b < a ≤ ceil_div a b * b.
Proof.
  intros Hb. unfold ceil_div.
  pose proof (Z.div_mod (a + b - 1) b ltac:(lia)) as Hdm.
  pose proof (Z.mod_pos_bound (a + b - 1) b Hb). nia.
Qed.

(** ** The partition into groups *)

Lemma groups_upto_nil {A} (fuel n : nat) : groups_upto fuel n (@nil A) = [].
Proof. by destruct fuel. Qed.

Lemma groups_upto_slices {A} (n fuel : nat) (l : list A) :
  (0 < n)%nat → (length l ≤ fuel)%nat →
  (λ k : nat, take n (drop (k * n) l))
    <$> seq 0 (Z.to_nat (py_range_len 0 (Z.of_nat (length l)) (Z.of_nat n)))
  = groups_upto fuel n l.
Proof.
  intros Hn. revert l. induction fuel as [|fuel IH]; intros l Hfuel.
  - destruct l; [|simpl in Hfuel; lia].
    simpl. by rewrite py_range_len_empty by lia.
  - destruct l as [|x l].
    { simpl. by rewrite py_range_len_empty by lia. }
    rewrite py_range_len_step by (simpl; lia).
    rewrite Nat2Z.id. cbn [seq fmap list_fmap groups_upto].
    f_equal. rewrite <- fmap_S_seq, <- list_fmap_compose.
    rewrite <- IH by (rewrite length_drop; simpl in *; lia).
    rewrite length_drop. apply list_fmap_ext; intros _ k _. simpl.
    by rewrite drop_drop.
Qed.

Lemma concat_groups_upto {A} (n fuel : nat) (l : list A) :
  (0 < n)%nat → (length l ≤ fuel)%nat → concat (groups_upto fuel n l) = l.
Proof.
  intros Hn. revert l. induction fuel as [|fuel IH]; intros l Hfuel.
  - destruct l; [done|simpl in Hfuel; lia].
  - destruct l as [|x l]; [done|]. cbn [groups_upto concat].
    rewrite IH by (rewrite length_drop; simpl in *; lia).
    apply take_drop.
Qed.

Lemma groups_upto_sizes {A} (n fuel : nat) (l : list A) :
  (0 < n)%nat →
  Forall (λ g, (1 ≤ length g ≤ n)%nat) (groups_upto fuel n l).
Proof.
  intros Hn. revert l. induction fuel as [|fuel IH]; intros l.
  - constructor.
  - destruct l as [|x l]; [constructor|]. cbn [groups_upto].
    constructor; [|apply IH].
    rewrite length_take. simpl. lia.
Qed.

Lemma groups_upto_inner_full {A} (n fuel : nat) (l : list A) i g :
  groups_upto fuel n l !! i = Some g →
  (S i < length (groups_upto fuel n l))%nat →
  length g = n.
Proof.
  revert l i. induction fuel as [|fuel IH]; intros l i Hg Hi.
  - done.
  - destruct l as [|x l]; [done|]. cbn [groups_upto] in *.
    destruct i as [|i].
    + injection Hg as <-. simpl in Hi.
      destruct (drop n (x :: l)) as [|y r] eqn:Hdrop.
      { rewrite groups_upto_nil in Hi. simpl in Hi. lia. }
      assert (length (drop n (x :: l)) ≠ 0)%nat as Hlen by by rewrite Hdrop.
      rewrite length_drop in Hlen. rewrite length_take. lia.
    + simpl in Hg, Hi. eapply IH; [done|lia].
Qed.

(** ** The chunker *)

Lemma sentence_slices_positive (self : TextProcessor) (sentences : list string) :
  0 < chunk_size self →
  sentence_slices self sentences
  = Returns (groups_of (Z.to_nat (chunk_size self)) sentences).
Proof.
  intros HN. unfold sentence_slices, py_range.
  destruct (Z.eqb_spec (chunk_size self) 0) as [|_]; [lia|].
  f_equal. rewrite <- list_fmap_compose. unfold groups_of.
  rewrite <- groups_upto_slices by lia.
  rewrite Z2Nat.id by lia.
  apply list_fmap_ext; intros _ k _. simpl.
  rewrite py_slice_nonneg by nia. f_equal; [lia|]. f_equal. lia.
Qed.

(** C1.  For a positive chunk size the chunker returns the chunks of the
    reference definition: the sentence sequence of the text cut into
    consecutive groups of [chunk_size] sentences, the last group holding
    the remainder of one to [chunk_size] sentences, each group joined by
    a single blank.  The groups put end to end are the sentence sequence,
    the number of chunks is [ceil(S / N)], and a text without sentences
    gives no chunk. *)
Theorem chunker_matches_reference (self : TextProcessor) (text : string) :
  0 < chunk_size self →
  let sentences := sent_tokenize text in
  let n := Z.to_nat (chunk_size self) in
  let groups := groups_of n sentences in
  chunks_of self text = Returns (reference_chunks sentences n)
  ∧ reference_chunks sentences n = py_join " " <$> groups
  ∧ concat groups = sentences
  ∧ Forall (λ g, (1 ≤ length g ≤ n)%nat) groups
  ∧ (∀ i g, groups !! i = Some g → (S i < length groups)%nat → length g = n)
  ∧ Z.of_nat (length (reference_chunks sentences n))
    = ceil_div (Z.of_nat (length sentences)) (chunk_size self)
  ∧ (sentences = [] → chunks_of self text = Returns []).
Proof.
  intros HN sentences n groups.
  assert (chunks_of self text = Returns (reference_chunks sentences n)) as Hrun.
  { unfold chunks_of. fold sentences.
    by rewrite sentence_slices_positive by done. }
  split_and!.
  - exact Hrun.
  - reflexivity.
  - apply concat_groups_upto; lia.
  - apply groups_upto_sizes; lia.
  - intros i g. apply groups_upto_inner_full.
  - unfold reference_chunks. rewrite length_fmap.
    unfold groups_of. rewrite <- (groups_upto_slices n) by lia.
    rewrite length_fmap, length_seq. subst n.
    rewrite (Z2Nat.id (chunk_size self)) by lia.
    rewrite py_range_len_ceil by lia.
    pose proof (ceil_div_bounds (Z.of_nat (length sentences))
                  (chunk_size self) HN).
    apply Z2Nat.id. nia.
  - intros Hnil. rewrite Hrun. unfold reference_chunks, groups_of.
    by rewrite Hnil.
Qed.

(** C9 (as the code has it).  The chunker has no check of its chunk size.
    A chunk size of zero makes [range] raise [ValueError] before any
    chunk is made; a negative chunk size raises nothing and gives the
    empty chunk sequence. *)
Theorem chunker_nonpositive_size (self : TextProcessor) (text : string) :
  chunk_size self ≤ 0 →
  chunks_of self text
  = if decide (chunk_size self = 0)
    then Raises (ValueError "range() arg 3 must not be zero")
    else Returns [].
Proof.
  intros HN. unfold chunks_of, sentence_slices, py_range.
  destruct (Z.eqb_spec (chunk_size self) 0) as [Hz|Hnz].
  - by rewrite decide_True.
  - rewrite decide_False by done. unfold py_range_len.
    destruct (Z.ltb_spec 0 (chunk_size self)) as [|_]; [lia|].
    destruct (Z.ltb_spec (Z.of_nat (length (sent_tokenize text))) 0) as [|_];
      [lia|]. reflexivity.
Qed.

(** ** Running effectful code *)

Ltac run :=
  unfold bind, ret, raise, try_except, lift, get, modify, log; simpl.

Ltac same_world :=
  unfold add_trace, set_trace; simpl; rewrite <- ?app_assoc; done.

Lemma string_app_assoc (a b c : string) : (a +:+ b) +:+ c = a +:+ (b +:+ c).
Proof.
  induction a as [|x a IH]; [done|].
  change (String x ((a +:+ b) +:+ c) = String x (a +:+ (b +:+ c))).
  by f_equal.
Qed.

Lemma string_app_nil_r (a : string) : a +:+ "" = a.
Proof.
  induction a as [|x a IH]; [done|].
  change (String x (a +:+ "") = String x a). by f_equal.
Qed.

Lemma add_trace_add_trace (e1 e2 : list event) (w : world vector) :
  add_trace e2 (add_trace e1 w) = add_trace (e1 ++ e2) w.
Proof. unfold add_trace, set_trace. simpl. by rewrite app_assoc. Qed.

Lemma add_trace_nil (w : world vector) : add_trace [] w = w.
Proof. destruct w. unfold add_trace, set_trace. simpl. by rewrite app_nil_r. Qed.

Lemma open_read_file path mode data (w : world vector) :
  fs w !! path = Some (RegularFile data) →
  open_read path mode w = (Returns data, add_trace [EvOpen path mode] w).
Proof. intros H. unfold open_read. run. by rewrite H. Qed.

Lemma open_read_no_file path mode (w : world vector) :
  (∀ data, fs w !! path ≠ Some (RegularFile data)) →
  ∃ e, open_read path mode w = (Raises e, add_trace [EvOpen path mode] w).
Proof.
  intros H. unfold open_read. run.
  destruct (fs w !! path) as [[data|]|] eqn:E; eauto. by destruct (H data).
Qed.

(** ** file_parser.py *)

Lemma _ocr_page_file filepath page_num data (w : world vector) :
  fs w !! filepath = Some (RegularFile data) →
  _ocr_page filepath page_num w
  = (Returns (ocr_text data page_num),
     add_trace [EvOcrPage page_num; EvOpen filepath "rb"] w).
Proof.
  intros H. unfold _ocr_page, open_read, ocr_text. run. rewrite H.
  unfold add_trace, set_trace. simpl. rewrite <- app_assoc. simpl.
  by destruct (image_to_string data page_num).
Qed.

Lemma pdf_pages_loop_readable filepath data ps :
  Forall (λ page, ∃ t, extract_text page = Returns t) ps →
  ∀ page_num content (w : world vector),
    fs w !! filepath = Some (RegularFile data) →
    pdf_pages_loop filepath page_num ps content w
    = (Returns (content +:+ concat_text (page_texts data page_num ps)),
       add_trace (pages_events filepath page_num ps) w).
Proof.
  induction 1 as [|page ps [t Ht] _ IH]; intros page_num content w Hfs.
  - simpl. unfold ret. by rewrite string_app_nil_r, add_trace_nil.
  - cbn [pdf_pages_loop page_texts pages_events concat_text foldr].
    unfold page_text, page_events, direct_text. rewrite Ht.
    unfold bind at 1. unfold log, modify.
    unfold bind at 1. unfold lift.
    unfold bind at 1.
    destruct (decide (t = EmptyString)) as [->|Hne].
    + rewrite (_ocr_page_file _ _ data) by done.
      rewrite IH by done. rewrite add_trace_add_trace.
      f_equal; [f_equal; apply string_app_assoc|].
      unfold add_trace, set_trace. simpl. by rewrite <- !app_assoc.
    + unfold ret at 1. rewrite IH by done.
      f_equal; [f_equal; apply string_app_assoc|].
      unfold add_trace, set_trace. simpl. by rewrite <- !app_assoc.
Qed.

Lemma PdfParser_parse_readable filepath data reader ps (w : world vector) :
  readable_pdf w filepath data reader ps →
  PdfParser_parse filepath w
  = (Returns (concat_text (page_texts data 0 ps)),
     add_trace (EvOpen filepath "rb" :: decrypt_events reader
                  ++ pages_events filepath 0 ps) w).
Proof.
  intros (Hfs & Hreader & Hdec & Hpages & Hall).
  unfold PdfParser_parse, try_except.
  unfold bind at 1. rewrite (open_read_file _ _ data) by done.
  unfold bind at 1. unfold lift at 1. rewrite Hreader.
  unfold bind at 1. unfold decrypt_events.
  destruct (is_encrypted reader).
  - rewrite Hdec by done. run. rewrite Hpages.
    rewrite (pdf_pages_loop_readable _ data) by done.
    f_equal. unfold add_trace, set_trace. simpl. by rewrite <- !app_assoc.
  - run. rewrite Hpages.
    rewrite (pdf_pages_loop_readable _ data) by done.
    f_equal. unfold add_trace, set_trace. simpl. by rewrite <- !app_assoc.
Qed.

Lemma page_texts_app data page_num ps1 ps2 :
  page_texts data page_num (ps1 ++ ps2)
  = page_texts data page_num ps1
    ++ page_texts data (page_num + length ps1) ps2.
Proof.
  revert page_num. induction ps1 as [|p ps1 IH]; intros page_num; simpl.
  - by rewrite Nat.add_0_r.
  - rewrite IH. do 3 f_equal. lia.
Qed.

Lemma concat_text_app l1 l2 :
  concat_text (l1 ++ l2) = concat_text l1 +:+ concat_text l2.
Proof.
  induction l1 as [|x l1 IH]; [done|].
  cbn [app concat_text foldr]. fold (concat_text (l1 ++ l2)).
  fold (concat_text l1). by rewrite IH, string_app_assoc.
Qed.

Lemma ocr_event_iff filepath ps n page_num :
  EvOcrPage n ∈ pages_events filepath page_num ps
  ↔ ∃ i page, n = (page_num + i)%nat ∧ ps !! i = Some page
              ∧ direct_text page = EmptyString.
Proof.
  revert page_num. induction ps as [|p ps IH]; intros page_num.
  - simpl. split; [by intros ?%elem_of_nil|by intros (?&?&?&?&?)].
  - cbn [pages_events]. rewrite elem_of_app, IH. clear IH.
    unfold page_events. split.
    + intros [Hhere|(i & page & -> & Hi & Hempty)].
      * destruct (decide (direct_text p = EmptyString)) as [Hp|Hp].
        -- exists 0%nat, p. split_and!; [|done|done].
           apply elem_of_cons in Hhere as [|Hhere]; [done|].
           apply elem_of_cons in Hhere as [[= ->]|Hhere]; [lia|].
           apply elem_of_cons in Hhere as [|Hhere]; [done|].
           by apply elem_of_nil in Hhere.
        -- apply elem_of_cons in Hhere as [|Hhere]; [done|].
           by apply elem_of_nil in Hhere.
      * exists (S i), page. split_and!; [lia|done|done].
    + intros (i & page & -> & Hi & Hempty). destruct i as [|i].
      * left. injection Hi as ->. rewrite decide_True by done.
        rewrite Nat.add_0_r. rewrite !elem_of_cons. auto.
      * right. exists i, page. split_and!; [lia|done|done].
Qed.

Lemma page_texts_lookup data ps n page_num :
  page_texts data page_num ps !! n
  = page_text data (page_num + n) <$> ps !! n.
Proof.
  revert n page_num. induction ps as [|p ps IH]; intros n page_num; [done|].
  destruct n as [|n]; simpl.
  - by rewrite Nat.add_0_r.
  - rewrite IH. by replace (S page_num + n)%nat with (page_num + S n)%nat by lia.
Qed.

(** C8.  On a PDF that opens, [PdfParser.parse] goes through the pages in
    page order; on each page it first asks for the text layer, and calls
    the OCR fallback exactly when that text is empty; the text returned is
    the texts of the pages end to end, nothing put between them. *)
Theorem pdf_pages_in_order filepath data reader ps (w : world vector) :
  readable_pdf w filepath data reader ps →
  ∃ w',
    PdfParser_parse filepath w
    = (Returns (concat_text (page_texts data 0 ps)), w')
    ∧ trace w' = trace w ++ EvOpen filepath "rb" :: decrypt_events reader
                   ++ pages_events filepath 0 ps
    ∧ (∀ n page, ps !! n = Some page →
         page_texts data 0 ps !! n = Some (page_text data n page))
    ∧ (∀ n, EvOcrPage n ∈ pages_events filepath 0 ps
            ↔ ∃ page, ps !! n = Some page
                      ∧ extract_text page = Returns EmptyString).
Proof.
  intros Hreadable. eexists. split_and!.
  - by apply PdfParser_parse_readable.
  - reflexivity.
  - intros n page Hn. by rewrite page_texts_lookup, Hn.
  - destruct Hreadable as (_ & _ & _ & _ & Hall).
    intros n. rewrite ocr_event_iff. split.
    + intros (i & page & -> & Hi & Hempty). exists page. split; [done|].
      eapply Forall_lookup_1 in Hall as [t Ht]; [|done].
      unfold direct_text in Hempty. rewrite Ht in Hempty. by rewrite Ht, Hempty.
    + intros (page & Hn & Ht). exists n, page. split_and!; [done|done|].
      unfold direct_text. by rewrite Ht.
Qed.

(** C6 (as the code has it).  On every page on which the OCR fallback
    fails, [_ocr_page] does not raise: it returns the placeholder
    ["Error in OCR processing"], not the empty string, and that is what a
    page without text layer adds to the document text.  In a PDF that opens
    and on whose pages the direct extraction does not raise, extraction
    goes on and the texts of the pages before and after that page are kept
    around the placeholder. *)
Theorem ocr_failure_degrades_page filepath data page_num e (w : world vector) :
  fs w !! filepath = Some (RegularFile data) →
  image_to_string data page_num = Raises e →
  _ocr_page filepath page_num w
  = (Returns "Error in OCR processing",
     add_trace [EvOcrPage page_num; EvOpen filepath "rb"] w)
  ∧ (∀ page, extract_text page = Returns EmptyString →
       page_text data page_num page = "Error in OCR processing")
  ∧ (∀ reader before page after,
       length before = page_num →
       readable_pdf w filepath data reader (before ++ page :: after) →
       extract_text page = Returns EmptyString →
       ∃ w',
         PdfParser_parse filepath w
         = (Returns (concat_text (page_texts data 0 before)
                     +:+ "Error in OCR processing"
                     +:+ concat_text (page_texts data (S page_num) after)),
            w')).
Proof.
  intros Hfs Hocr.
  assert (∀ page, extract_text page = Returns EmptyString →
            page_text data page_num page = "Error in OCR processing")
    as Htext.
  { intros page Hpage. unfold page_text, direct_text, ocr_text.
    by rewrite Hpage, Hocr. }
  split_and!.
  - rewrite (_ocr_page_file _ _ data) by done.
    unfold ocr_text. by rewrite Hocr.
  - exact Htext.
  - intros reader before page after <- Hreadable Hpage.
    eexists. rewrite (PdfParser_parse_readable _ data reader _ w) by done.
    do 2 f_equal. rewrite page_texts_app, concat_text_app.
    cbn [page_texts concat_text foldr]. simpl. by rewrite Htext.
Qed.

Lemma PdfParser_parse_returns filepath (w : world vector) :
  ∃ s w', PdfParser_parse filepath w = (Returns s, w').
Proof.
  unfold PdfParser_parse, try_except.
  match goal with |- context [match ?m w with _ => _ end] => destruct (m w) as [[s|e] w'] end;
    unfold ret; eauto.
Qed.

(** C7.  [PdfParser.parse] never raises.  When the document is encrypted
    and [decrypt('')] raises, it returns ["Unable to decrypt PDF"] having
    made no call on any page.  When the file cannot be opened, when PyPDF2
    rejects it, or when its pages cannot be read, it returns
    ["Error processing PDF file"], again without any call on a page. *)
Theorem pdf_failures_degrade filepath (w : world vector) :
  (∃ s w', PdfParser_parse filepath w = (Returns s, w'))
  ∧ (∀ data reader e,
       fs w !! filepath = Some (RegularFile data) →
       PdfReader data = Returns reader →
       is_encrypted reader = true →
       decrypt reader = Raises e →
       PdfParser_parse filepath w
       = (Returns "Unable to decrypt PDF",
          add_trace [EvOpen filepath "rb"; EvDecrypt] w))
  ∧ ((∀ data, fs w !! filepath ≠ Some (RegularFile data)) →
       PdfParser_parse filepath w
       = (Returns "Error processing PDF file",
          add_trace [EvOpen filepath "rb"] w))
  ∧ (∀ data e,
       fs w !! filepath = Some (RegularFile data) →
       PdfReader data = Raises e →
       PdfParser_parse filepath w
       = (Returns "Error processing PDF file",
          add_trace [EvOpen filepath "rb"] w))
  ∧ (∀ data reader e,
       fs w !! filepath = Some (RegularFile data) →
       PdfReader data = Returns reader →
       (is_encrypted reader = true → decrypt reader = Returns tt) →
       pages reader = Raises e →
       PdfParser_parse filepath w
       = (Returns "Error processing PDF file",
          add_trace (EvOpen filepath "rb" :: decrypt_events reader) w)).
Proof.
  split_and!.
  - apply PdfParser_parse_returns.
  - intros data reader e Hfs Hreader Henc Hdec.
    unfold PdfParser_parse, try_except.
    unfold bind at 1. rewrite (open_read_file _ _ data) by done.
    unfold bind at 1. unfold lift at 1. rewrite Hreader.
    unfold bind at 1. rewrite Henc. run. rewrite Hdec. f_equal. same_world.
  - intros Hnofile. unfold PdfParser_parse, try_except.
    unfold bind at 1.
    destruct (open_read_no_file filepath "rb" w Hnofile) as [e ->]. by run.
  - intros data e Hfs Hreader.
    unfold PdfParser_parse, try_except.
    unfold bind at 1. rewrite (open_read_file _ _ data) by done.
    unfold bind at 1. unfold lift at 1. by rewrite Hreader.
  - intros data reader e Hfs Hreader Hdec Hpages.
    unfold PdfParser_parse, try_except.
    unfold bind at 1. rewrite (open_read_file _ _ data) by done.
    unfold bind at 1. unfold lift at 1. rewrite Hreader.
    unfold bind at 1. unfold decrypt_events.
    destruct (is_encrypted reader).
    + rewrite Hdec by done. run. rewrite Hpages. f_equal. same_world.
    + run. by rewrite Hpages.
Qed.

Lemma TxtParser_parse_returns filepath (w : world vector) :
  ∃ s w', TxtParser_parse filepath w = (Returns s, w').
Proof.
  unfold TxtParser_parse, try_except.
  match goal with |- context [match ?m w with _ => _ end] => destruct (m w) as [[s|e] w'] end;
    unfold ret; eauto.
Qed.

Lemma BaseParser_parse_returns parser filepath (w : world vector) :
  ∃ s w', BaseParser_parse parser filepath w = (Returns s, w').
Proof.
  destruct parser; [apply TxtParser_parse_returns|apply PdfParser_parse_returns].
Qed.

Lemma FileParser_init_registered path cls (w : world vector) :
  parsers w !! last_dot_segment path = Some cls →
  FileParser_init path w = (Returns {| filepath := path; parser := cls |}, w).
Proof.
  intros Hcls. unfold FileParser_init, _get_parser, get_parser. run.
  rewrite decide_False by by rewrite Hcls. by rewrite Hcls.
Qed.

Lemma FileParser_init_unregistered path (w : world vector) :
  parsers w !! last_dot_segment path = None →
  FileParser_init path w
  = (Raises (ValueError ("Unsupported file extension: "
                         +:+ last_dot_segment path)), w).
Proof.
  intros Hnone. unfold FileParser_init, _get_parser. run.
  by rewrite decide_True by done.
Qed.

Lemma FileParser_parse_missing self (w : world vector) :
  fs w !! filepath self = None →
  FileParser_parse self w
  = (Raises (FileNotFoundError ("File not found: " +:+ filepath self)),
     add_trace [EvPathExists (filepath self)] w).
Proof.
  intros Hnone. unfold FileParser_parse, os_path_exists. run.
  rewrite Hnone. rewrite bool_decide_eq_false_2 by by intros [? ?]. done.
Qed.

Lemma FileParser_parse_present self (w : world vector) :
  is_Some (fs w !! filepath self) →
  FileParser_parse self w
  = BaseParser_parse (parser self) (filepath self)
      (add_trace [EvPathExists (filepath self)] w).
Proof.
  intros Hsome. unfold FileParser_parse, os_path_exists. run.
  by rewrite bool_decide_eq_true_2 by done.
Qed.

(** ** background_tasks.py: embedding and storing *)

Lemma flush_pending_chunks fid cvs (d : db_state vector) :
  fold_left flush_one (pending_chunks fid cvs) d
  = {| files := files d;
       file_chunks := file_chunks d ++ chunk_rows (file_chunks_seq d) fid cvs;
       files_seq := files_seq d;
       file_chunks_seq := file_chunks_seq d + Z.of_nat (length cvs);
       session_new := session_new d |}.
Proof.
  revert d. induction cvs as [|[c v] cvs IH]; intros d.
  - destruct d; simpl. by rewrite app_nil_r, Z.add_0_r.
  - cbn [pending_chunks fmap list_fmap fold_left]. fold (pending_chunks fid cvs).
    rewrite IH. simpl. rewrite <- app_assoc. simpl. f_equal. lia.
Qed.

Lemma embed_loop self chunks :
  ∀ w : world vector, ∃ r w',
    for_each chunks (embed_and_add self) w = (r, w')
    ∧ files (db w') = files (db w)
    ∧ file_chunks (db w') = file_chunks (db w)
    ∧ files_seq (db w') = files_seq (db w)
    ∧ file_chunks_seq (db w') = file_chunks_seq (db w)
    ∧ (∃ evs, trace w' = trace w ++ evs ∧ EvSessionCommit ∉ evs)
    ∧ match r with
      | Returns _ =>
          ∃ vs, embedded (api_calls w) chunks vs
                ∧ session_new (db w')
                  = session_new (db w)
                    ++ pending_chunks (file_id self) (zip chunks vs)
      | Raises e =>
          ∃ k chunk, chunks !! k = Some chunk
                     ∧ embedding_service (api_calls w + k) chunk = Raises e
                     ∧ api_calls w' = (api_calls w + S k)%nat
      end.
Proof.
  induction chunks as [|c chunks IH]; intros w.
  - exists (Returns tt), w. split_and!; try done.
    + exists []. split; [by rewrite app_nil_r|by intros ?%elem_of_nil].
    + exists []. split; [by split|]. by rewrite app_nil_r.
  - cbn [for_each]. unfold bind at 1. unfold embed_and_add at 1.
    unfold embeddings_create, db_add. run.
    destruct (embedding_service (api_calls w) c) as [v|e] eqn:Hc.
    + match goal with |- context [for_each chunks _ ?w1] =>
        destruct (IH w1)
          as (r & w' & -> & Hf & Hfc & Hfs & Hcs & (evs & Htr & Hevs) & Hr) end.
      simpl in *. exists r, w'. split_and!; try done.
      { exists ([EvEmbeddingsCreate c; EvSessionAdd] ++ evs). split.
        - rewrite Htr. by rewrite <- !app_assoc.
        - simpl. intros Hin.
          apply elem_of_cons in Hin as [|Hin]; [done|].
          by apply elem_of_cons in Hin as [|Hin]. }
      destruct r as [[]|e].
      * destruct Hr as (vs & [Hlen Hvs] & Hnew). exists (v :: vs). split.
        -- split; [simpl; lia|]. intros [|i] chunk v' Hi Hv; simpl in *.
           ++ injection Hi as <-. injection Hv as <-. by rewrite Nat.add_0_r.
           ++ rewrite <- (Hvs i chunk v') by done. f_equal. lia.
        -- rewrite Hnew. by rewrite <- app_assoc.
      * destruct Hr as (k & chunk & Hk & Hfail & Hcalls).
        exists (S k), chunk. split_and!; [done| |lia].
        rewrite <- Hfail. f_equal. lia.
    + eexists _, _. split; [done|]. simpl. split_and!; try done.
      * exists [EvEmbeddingsCreate c]. split; [done|].
        by intros [?|?%elem_of_nil]%elem_of_cons.
      * exists 0%nat, c. split_and!; [done| |lia]. by rewrite Nat.add_0_r.
Qed.

(** C10.  In the session of a request (nothing pending before),
    [chunk_and_embed] stores the chunks of a document in one commit after
    the loop.  When the embedding request of some chunk fails, the
    exception leaves the loop: no request is made for the chunks after it,
    no commit is made, and the table of chunks is as before.  Otherwise one
    row per chunk is added, in chunk order.  No run stores a part of the
    chunks. *)
Theorem ingestion_all_or_nothing self text chunks (w : world vector) :
  session_new (db w) = [] →
  chunks_of self text = Returns chunks →
  ∃ r w',
    chunk_and_embed self text w = (r, w')
    ∧ match r with
      | Raises e =>
          (∃ k chunk, chunks !! k = Some chunk
                      ∧ embedding_service (api_calls w + k) chunk = Raises e
                      ∧ api_calls w' = (api_calls w + S k)%nat)
          ∧ file_chunks (db w') = file_chunks (db w)
          ∧ EvSessionCommit ∉ drop (length (trace w)) (trace w')
      | Returns _ =>
          ∃ vs, embedded (api_calls w) chunks vs
                ∧ file_chunks (db w')
                  = file_chunks (db w)
                    ++ chunk_rows (file_chunks_seq (db w)) (file_id self)
                         (zip chunks vs)
      end
    ∧ ((∃ k chunk e, chunks !! k = Some chunk
                     ∧ embedding_service (api_calls w + k) chunk = Raises e)
       → ∃ e, r = Raises e ∧ file_chunks (db w') = file_chunks (db w)).
Proof.
  intros Hfresh Hchunks. unfold chunk_and_embed.
  unfold bind at 1. unfold lift at 1. rewrite Hchunks.
  unfold bind at 1.
  destruct (embed_loop self chunks w)
    as (r & w1 & Hloop & Hf & Hfc & Hfs & Hcs & (evs & Htr & Hevs) & Hr).
  rewrite Hloop. destruct r as [[]|e].
  - destruct Hr as (vs & Hvs & Hnew). unfold db_commit. run.
    eexists _, _. split; [done|]. simpl. split.
    + exists vs. split; [done|]. unfold flush.
      rewrite Hnew, Hfresh. simpl. rewrite flush_pending_chunks. simpl.
      by rewrite Hfc, Hcs.
    + intros (k & chunk & e & Hk & Hfail). exfalso.
      destruct Hvs as [Hlen Hvs].
      destruct (vs !! k) as [v|] eqn:Hv.
      * rewrite (Hvs k chunk v) in Hfail by done. done.
      * apply lookup_ge_None in Hv. apply lookup_lt_Some in Hk. lia.
  - eexists _, _. split; [done|]. split; [split_and!|]; eauto.
    by rewrite Htr, drop_app_length.
Qed.

(** ** Parsing changes nothing but the trace *)

Lemma traces_only_ret {A} (a : A) : traces_only (ret a).
Proof. intros w. exists (Returns a), []. unfold ret. by rewrite add_trace_nil. Qed.

Lemma traces_only_raise {A} (e : exn) : traces_only (@raise A e).
Proof. intros w. exists (Raises e), []. unfold raise. by rewrite add_trace_nil. Qed.

Lemma traces_only_lift {A} (o : outcome A) : traces_only (lift o).
Proof. intros w. exists o, []. unfold lift. by rewrite add_trace_nil. Qed.

Lemma traces_only_log (e : event) : traces_only (log e).
Proof. intros w. by exists (Returns tt), [e]. Qed.

Lemma traces_only_bind {A B} (m : M A) (k : A → M B) :
  traces_only m → (∀ a, traces_only (k a)) → traces_only (bind m k).
Proof.
  intros Hm Hk w. unfold bind. destruct (Hm w) as ([a|e] & evs & ->).
  - destruct (Hk a (add_trace evs w)) as (r & evs' & ->).
    exists r, (evs ++ evs'). by rewrite add_trace_add_trace.
  - by exists (Raises e), evs.
Qed.

Lemma traces_only_try_except {A} (m : M A) (handler : exn → M A) :
  traces_only m → (∀ e, traces_only (handler e)) →
  traces_only (try_except m handler).
Proof.
  intros Hm Hh w. unfold try_except. destruct (Hm w) as ([a|e] & evs & ->).
  - by exists (Returns a), evs.
  - destruct (Hh e (add_trace evs w)) as (r & evs' & ->).
    exists r, (evs ++ evs'). by rewrite add_trace_add_trace.
Qed.

Lemma traces_only_open_read path mode : traces_only (open_read path mode).
Proof.
  intros w. unfold open_read. run.
  destruct (fs w !! path) as [[data|]|]; by eexists _, [EvOpen path mode].
Qed.

Create HintDb traces.
Hint Resolve traces_only_ret traces_only_raise traces_only_lift
  traces_only_log traces_only_open_read : traces.
Hint Extern 2 (traces_only (bind _ _)) =>
  apply traces_only_bind; [|intros ?] : traces.
Hint Extern 2 (traces_only (try_except _ _)) =>
  apply traces_only_try_except; [|intros ?] : traces.

Lemma traces_only_ocr_page filepath page_num :
  traces_only (_ocr_page filepath page_num).
Proof. unfold _ocr_page. auto 10 with traces. Qed.

Lemma traces_only_pdf_pages_loop filepath ps :
  ∀ page_num content,
    traces_only (pdf_pages_loop filepath page_num ps content).
Proof.
  induction ps as [|page ps IH]; intros page_num content; simpl.
  - auto with traces.
  - apply traces_only_bind; [auto with traces|intros _].
    apply traces_only_bind; [auto with traces|intros t].
    apply traces_only_bind; [|intros t'; apply IH].
    destruct (decide (t = EmptyString));
      [apply traces_only_ocr_page|auto with traces].
Qed.

Lemma traces_only_parse parser filepath :
  traces_only (BaseParser_parse parser filepath).
Proof.
  destruct parser; simpl.
  - unfold TxtParser_parse. auto 10 with traces.
  - unfold PdfParser_parse.
    apply traces_only_try_except; [|auto with traces].
    apply traces_only_bind; [auto with traces|intros data].
    apply traces_only_bind; [auto with traces|intros reader].
    apply traces_only_bind.
    + destruct (is_encrypted reader); auto 10 with traces.
    + intros [s|]; [auto with traces|].
      apply traces_only_bind; [auto with traces|intros ps].
      apply traces_only_pdf_pages_loop.
Qed.

Lemma parse_returns_and_traces parser filepath (w : world vector) :
  ∃ text evs,
    BaseParser_parse parser filepath w = (Returns text, add_trace evs w).
Proof.
  destruct (BaseParser_parse_returns parser filepath w) as (text & w' & Hrun).
  destruct (traces_only_parse parser filepath w) as (r & evs & Htr).
  exists text, evs. congruence.
Qed.

(** C5.  [FileParser(path).parse()] fails in two cases only.  When the
    last dot segment of the path has no registered parser it raises (a
    [ValueError], from the constructor) and the world is as before: no
    call on the file system has been made.  With a registered parser it
    raises [FileNotFoundError] when nothing exists at the path, having only
    asked whether the path exists.  Otherwise it hands over to the parser
    of the extension and returns a text, whatever the content is. *)
Theorem parse_fails_only_structurally path (w : world vector) :
  match parsers w !! last_dot_segment path with
  | None =>
      parse_path path w
      = (Raises (ValueError ("Unsupported file extension: "
                             +:+ last_dot_segment path)), w)
  | Some cls =>
      match fs w !! path with
      | None =>
          parse_path path w
          = (Raises (FileNotFoundError ("File not found: " +:+ path)),
             add_trace [EvPathExists path] w)
      | Some _ =>
          parse_path path w
          = BaseParser_parse cls path (add_trace [EvPathExists path] w)
          ∧ ∃ text evs,
              parse_path path w
              = (Returns text, add_trace (EvPathExists path :: evs) w)
      end
  end.
Proof.
  unfold parse_path, bind.
  destruct (parsers w !! last_dot_segment path) as [cls|] eqn:Hcls.
  - rewrite (FileParser_init_registered _ cls) by done.
    destruct (fs w !! path) as [entry|] eqn:Hfs.
    + rewrite FileParser_parse_present by (simpl; by rewrite Hfs).
      split; [done|]. simpl.
      destruct (parse_returns_and_traces cls path
                  (add_trace [EvPathExists path] w)) as (text & evs & ->).
      exists text, evs. by rewrite add_trace_add_trace.
    + by rewrite FileParser_parse_missing.
  - by rewrite FileParser_init_unregistered.
Qed.

(** ** app.py: upload *)

Lemma os_path_join_sources_ne filename :
  os_path_join "sources" filename ≠ "sources".
Proof.
  unfold os_path_join. destruct (os_path_isabs filename) eqn:Habs.
  - intros ->. by vm_compute in Habs.
  - rewrite decide_False by done. rewrite decide_False by by vm_compute.
    rewrite <- (string_app_nil_r "sources") at 2.
    intros Heq%(inj (String.app "sources")). done.
Qed.

Lemma os_makedirs_cases path (w : world vector) :
  (∃ e, os_makedirs path w = (Raises e, add_trace [EvMakedirs path] w))
  ∨ (∃ w1, os_makedirs path w = (Returns tt, w1)
           ∧ db w1 = db w ∧ parsers w1 = parsers w
           ∧ background_tasks w1 = background_tasks w
           ∧ ∀ other, other ≠ path → fs w1 !! other = fs w !! other).
Proof.
  unfold os_makedirs. run. destruct (fs w !! path) as [[data|]|] eqn:E.
  - left. by eexists.
  - right. eexists. by split_and!.
  - right. eexists. split_and!; try done.
    intros other Hne. simpl. by rewrite lookup_insert_ne.
Qed.

Lemma os_makedirs_existing path (w : world vector) :
  fs w !! path = Some Directory →
  os_makedirs path w = (Returns tt, add_trace [EvMakedirs path] w).
Proof. intros H. unfold os_makedirs. run. by rewrite H. Qed.

Lemma open_write_existing path old data (w : world vector) :
  fs w !! path = Some (RegularFile old) →
  open_write path data w
  = (Returns tt,
     set_fs (insert path (RegularFile data)) (add_trace [EvOpen path "wb+"] w)).
Proof. intros H. unfold open_write. run. by rewrite H. Qed.

Lemma db_commit_checked_fresh name text (w : world vector) :
  session_new (db w) = [new_File name text] →
  db_commit_checked w
  = if files_row_accepted name text
    then db_commit w
    else (Raises (LibraryError "DataError"),
          set_db (set_session_new (λ _, [])) (add_trace [EvSessionCommit] w)).
Proof.
  intros Hnew. unfold db_commit_checked, pending_accepted. run.
  rewrite Hnew. simpl.
  rewrite andb_true_r. by destruct (files_row_accepted name text).
Qed.

(** C4.  For an upload that passes the check of the extension, with a name
    that is a plain relative path (the file system of the model is keyed
    by paths as they are spelled), [upload_file] calls [FileParser.parse]
    on the destination [sources/<filename>] before it writes the uploaded
    bytes there.  So when nothing exists at the destination the request
    ends in HTTP 500, the database is as before and nothing has been
    written at the destination.  When a regular file is already there (in
    the existing folder, with a parser registered for the extension, in a
    fresh session), the text that goes to the database is what the parser
    extracts from that old file, whatever bytes are uploaded, and the
    uploaded bytes replace the old file only afterwards: when PostgreSQL
    accepts the row, the request returns and that text is the content of
    the new [File] row; when it rejects the row (a name over 255
    characters, a NUL character), the request ends in HTTP 500 with no row
    stored and the old file already overwritten. *)
Theorem upload_parses_before_write (filename : string) (w : world vector) :
  last_dot_segment filename ∈ ["txt"; "pdf"] →
  plain_name filename →
  let file_location := os_path_join "sources" filename in
  (fs w !! file_location = None →
     ∀ uploaded, ∃ w',
       upload_file filename uploaded w
       = (Raises (HTTPException 500 "Error saving file"), w')
       ∧ db w' = db w
       ∧ background_tasks w' = background_tasks w
       ∧ fs w' !! file_location = None)
  ∧ (∀ old cls,
       fs w !! file_location = Some (RegularFile old) →
       fs w !! "sources" = Some Directory →
       parsers w !! last_dot_segment file_location = Some cls →
       session_new (db w) = [] →
       ∃ text evs,
         BaseParser_parse cls file_location
           (add_trace [EvMakedirs "sources"; EvPathExists file_location] w)
         = (Returns text,
            add_trace ([EvMakedirs "sources"; EvPathExists file_location]
                         ++ evs) w)
         ∧ (cls = TxtParser → ∀ t, text_decode old = Returns t → text = t)
         ∧ ∀ uploaded, ∃ r w',
             upload_file filename uploaded w = (r, w')
             ∧ fs w' = <[file_location := RegularFile uploaded]> (fs w)
             ∧ trace w'
               = trace w ++ [EvMakedirs "sources"; EvPathExists file_location]
                   ++ evs ++ [EvOpen file_location "wb+"; EvSessionAdd;
                              EvSessionCommit]
             ∧ if files_row_accepted filename text
               then r = Returns [("info", "File saved"); ("filename", filename)]
                    ∧ files (db w')
                      = files (db w)
                        ++ [File.mk (files_seq (db w)) filename text]
                    ∧ background_tasks w'
                      = background_tasks w
                        ++ [({| file_id := files_seq (db w); chunk_size := 2 |},
                             text)]
               else r = Raises (HTTPException 500 "Error saving file")
                    ∧ files (db w') = files (db w)
                    ∧ background_tasks w' = background_tasks w).
Proof.
  intros Hext _ file_location. split.
  - intros Hnone uploaded. unfold upload_file.
    rewrite decide_False by (intros Hn; by apply Hn).
    fold file_location. unfold try_except.
    unfold bind at 1.
    destruct (os_makedirs_cases "sources" w)
      as [[e ->]|(w1 & -> & Hdb & Hparsers & Htasks & Hfs)].
    { eexists. split; [done|]. by split_and!. }
    assert (fs w1 !! file_location = None) as Hnone1.
    { rewrite Hfs; [done|]. apply os_path_join_sources_ne. }
    unfold bind at 1.
    destruct (parsers w1 !! last_dot_segment file_location) as [cls|] eqn:Hcls.
    + rewrite (FileParser_init_registered _ cls) by done.
      unfold bind at 1.
      rewrite (FileParser_parse_missing {| filepath := file_location; parser := cls |})
        by done.
      eexists. split; [done|]. by split_and!.
    + rewrite FileParser_init_unregistered by done.
      eexists. split; [done|]. by split_and!.
  - intros old cls Hold Hdir Hcls Hfresh.
    destruct (parse_returns_and_traces cls file_location
                (add_trace [EvMakedirs "sources"; EvPathExists file_location] w))
      as (text & evs & Hparse).
    exists text, evs. split_and!.
    + rewrite Hparse. f_equal. by rewrite add_trace_add_trace.
    + intros -> t Ht. simpl in Hparse.
      unfold TxtParser_parse, try_except in Hparse.
      unfold bind at 1 in Hparse.
      rewrite (open_read_file _ _ old) in Hparse by done.
      unfold lift in Hparse. rewrite Ht in Hparse. congruence.
    + intros uploaded. unfold upload_file.
      rewrite decide_False by (intros Hn; by apply Hn).
      fold file_location. unfold try_except.
      unfold bind at 1. rewrite os_makedirs_existing by done.
      unfold bind at 1.
      rewrite (FileParser_init_registered _ cls) by done.
      unfold bind at 1.
      rewrite (FileParser_parse_present {| filepath := file_location; parser := cls |})
        by (simpl; by rewrite Hold).
      simpl filepath. simpl parser. rewrite add_trace_add_trace.
      simpl app. rewrite Hparse.
      unfold bind at 1.
      rewrite (open_write_existing _ old) by done.
      unfold bind at 1. unfold db_add at 1. run.
      rewrite (db_commit_checked_fresh filename text)
        by (simpl; by rewrite Hfresh).
      destruct (files_row_accepted filename text).
      * unfold db_commit, add_task. run. rewrite Hfresh. simpl.
        eexists _, _. split; [done|]. simpl. split_and!; try done.
        -- by rewrite <- !app_assoc.
        -- unfold flush. simpl. by rewrite Hfresh.
      * eexists _, _. split; [done|]. simpl. split_and!; try done.
        by rewrite <- !app_assoc.
Qed.

(** ** More on the extension of a path *)

Lemma string_app_cons (c : ascii) (a b : string) :
  String c a +:+ b = String c (a +:+ b).
Proof. reflexivity. Qed.

Lemma py_split_app_sep sep a b :
  py_split sep (a +:+ String sep b) = py_split sep a ++ py_split sep b.
Proof.
  induction a as [|c a IH].
  - change (py_split sep (String sep b) = [EmptyString] ++ py_split sep b).
    cbn [py_split]. by rewrite Ascii.eqb_refl.
  - rewrite string_app_cons. cbn [py_split]. rewrite IH.
    destruct (Ascii.eqb c sep); [done|].
    pose proof (py_split_nonempty sep a) as Hne.
    by destruct (py_split sep a).
Qed.

Lemma py_split_no_sep sep s :
  sep ∉ list_ascii_of_string s → py_split sep s = [s].
Proof.
  induction s as [|c s IH]; [done|]. cbn [list_ascii_of_string py_split].
  intros Hnot. apply not_elem_of_cons in Hnot as [Hne Hnot].
  destruct (Ascii.eqb_spec c sep) as [->|_]; [done|]. by rewrite IH.
Qed.

Lemma py_split_segments sep s :
  Forall (λ x, sep ∉ list_ascii_of_string x) (py_split sep s).
Proof.
  induction s as [|c s IH]; cbn [py_split].
  - constructor; [|constructor]. by intros ?%elem_of_nil.
  - destruct (Ascii.eqb_spec c sep) as [->|Hne].
    + constructor; [|done]. by intros ?%elem_of_nil.
    + pose proof (py_split_nonempty sep s) as Hnil.
      destruct (py_split sep s) as [|hd tl]; [done|].
      apply Forall_cons in IH as [Hhd Htl].
      constructor; [|done]. cbn [list_ascii_of_string].
      intros [?|?]%elem_of_cons; [by subst|done].
Qed.

Lemma string_split_at c s :
  c ∈ list_ascii_of_string s → ∃ s1 s2, s = s1 +:+ String c s2.
Proof.
  induction s as [|x s IH]; cbn [list_ascii_of_string].
  - by intros ?%elem_of_nil.
  - intros [->|Hin]%elem_of_cons.
    + by exists EmptyString, s.
    + destruct (IH Hin) as (s1 & s2 & ->). by exists (String x s1), s2.
Qed.

Lemma last_app_nonempty {A} (l1 l2 : list A) :
  l2 ≠ [] → last (l1 ++ l2) = last l2.
Proof.
  intros Hne. destruct l2 as [|x l2 _] using rev_ind; [done|].
  by rewrite app_assoc, !last_snoc.
Qed.

Lemma last_dot_segment_app a b :
  "."%char ∈ list_ascii_of_string b →
  last_dot_segment (a +:+ b) = last_dot_segment b.
Proof.
  intros (b1 & b2 & ->)%string_split_at. unfold last_dot_segment.
  rewrite <- string_app_assoc, !py_split_app_sep.
  by rewrite !last_app_nonempty by apply py_split_nonempty.
Qed.

(** X1.  The extension that the upload gate and [FileParser] look at is the
    text after the last full stop of the name: with an extension [ext] free
    of full stops, [stem.ext] has extension [ext] whatever [stem] is (so
    [a.b.pdf] has [pdf]); a name without full stop is its own extension; and
    an extension never contains a full stop. *)
Theorem last_dot_segment_is_final_segment (stem ext s : string) :
  "."%char ∉ list_ascii_of_string ext →
  last_dot_segment (stem +:+ "." +:+ ext) = ext
  ∧ last_dot_segment ext = ext
  ∧ "."%char ∉ list_ascii_of_string (last_dot_segment s).
Proof.
  intros Hext. assert (last_dot_segment ext = ext) as Hself.
  { unfold last_dot_segment. by rewrite py_split_no_sep. }
  split_and!; [|done|].
  - change (last_dot_segment (stem +:+ String "."%char ext) = ext).
    unfold last_dot_segment. rewrite py_split_app_sep.
    rewrite last_app_nonempty by apply py_split_nonempty. exact Hself.
  - unfold last_dot_segment. pose proof (py_split_segments "."%char s) as Hall.
    destruct (last (py_split "."%char s)) as [x|] eqn:Hlast.
    + apply last_Some in Hlast as [l' Hl]. rewrite Hl in Hall.
      apply Forall_app in Hall as [_ Hx]. by inversion Hx.
    + by intros ?%elem_of_nil.
Qed.

(** X2.  When the uploaded name contains a full stop, the extension that
    [FileParser] derives from the destination [sources/<filename>] is the
    one the upload gate derived from the name itself; so with the two
    parsers of the module registered, a name that passes the gate gets its
    parser and the constructor does not raise. *)
Theorem gate_and_parser_agree_on_extension (filename : string) (w : world vector) :
  "."%char ∈ list_ascii_of_string filename →
  last_dot_segment filename ∈ ["txt"; "pdf"] →
  parsers w !! "txt" = Some TxtParser →
  parsers w !! "pdf" = Some PdfParser →
  let file_location := os_path_join "sources" filename in
  last_dot_segment file_location = last_dot_segment filename
  ∧ ∃ cls,
      FileParser_init file_location w
      = (Returns {| filepath := file_location; parser := cls |}, w)
      ∧ (cls = TxtParser ↔ last_dot_segment filename = "txt").
Proof.
  intros Hdot Hgate Htxt Hpdf file_location.
  assert (last_dot_segment file_location = last_dot_segment filename) as Hsame.
  { unfold file_location, os_path_join.
    destruct (os_path_isabs filename); [done|].
    rewrite decide_False by done. rewrite decide_False by by vm_compute.
    rewrite <- string_app_assoc. by apply last_dot_segment_app. }
  split; [done|].
  apply elem_of_cons in Hgate as [Hext|Hgate].
  - exists TxtParser. split; [|done].
    apply FileParser_init_registered. by rewrite Hsame, Hext.
  - apply elem_of_cons in Hgate as [Hext|Hgate]; [|by apply elem_of_nil in Hgate].
    exists PdfParser. split.
    + apply FileParser_init_registered. by rewrite Hsame, Hext.
    + rewrite Hext. split; discriminate.
Qed.

(** ** More on the chunker *)

Lemma groups_upto_nonempty {A} (n fuel : nat) (l : list A) :
  l ≠ [] → (length l ≤ fuel)%nat → groups_upto fuel n l ≠ [].
Proof.
  intros Hl Hfuel. destruct l as [|x l]; [done|].
  destruct fuel as [|fuel]; [simpl in Hfuel; lia|done].
Qed.

Lemma last_cons_nonempty {A} (x : A) (l : list A) :
  l ≠ [] → last (x :: l) = last l.
Proof. by destruct l. Qed.

Lemma groups_upto_last {A} (n fuel : nat) (l : list A) g :
  (0 < n)%nat → (length l ≤ fuel)%nat →
  last (groups_upto fuel n l) = Some g →
  length g = if decide (length l mod n = 0)%nat then n else (length l mod n)%nat.
Proof.
  intros Hn. revert l. induction fuel as [|fuel IH]; intros l Hfuel Hlast.
  - by destruct l.
  - destruct l as [|x l]; [done|]. cbn [groups_upto] in Hlast.
    destruct (drop n (x :: l)) as [|y rest] eqn:Hdrop.
    + rewrite groups_upto_nil in Hlast. injection Hlast as <-.
      assert (length (drop n (x :: l)) = 0)%nat as Hlen by by rewrite Hdrop.
      rewrite length_drop in Hlen. rewrite length_take.
      destruct (decide (length (x :: l) = n)) as [Heq|Hne].
      * rewrite Heq, Nat.Div0.mod_same. rewrite decide_True by done. lia.
      * rewrite Nat.mod_small by lia.
        rewrite decide_False by (simpl; lia). lia.
    + assert (length (drop n (x :: l)) ≠ 0)%nat as Hlen by by rewrite Hdrop.
      rewrite length_drop in Hlen.
      rewrite last_cons_nonempty in Hlast.
      2:{ rewrite <- Hdrop. apply groups_upto_nonempty; [by rewrite Hdrop|].
          rewrite length_drop. simpl in *. lia. }
      rewrite <- Hdrop in Hlast. apply IH in Hlast.
      2:{ rewrite length_drop. simpl in *. lia. }
      rewrite length_drop in Hlast.
      assert (length (x :: l) mod n = (length (x :: l) - n) mod n)%nat as ->; [|done].
      rewrite <- (Nat.Div0.mod_add (length (x :: l) - n) 1 n).
      f_equal. lia.
Qed.

(** X3.  For a positive chunk size [N] and [S] sentences, the last group of
    sentences that the comprehension of [chunk_and_embed] cuts has [S mod N]
    sentences, or [N] of them when [N] divides [S]. *)
Theorem last_chunk_holds_the_remainder (self : TextProcessor)
    (sentences : list string) groups g :
  0 < chunk_size self →
  sentence_slices self sentences = Returns groups →
  last groups = Some g →
  Z.of_nat (length g)
  = if decide (Z.of_nat (length sentences) `mod` chunk_size self = 0)
    then chunk_size self
    else Z.of_nat (length sentences) `mod` chunk_size self.
Proof.
  intros HN Hrun Hlast. rewrite sentence_slices_positive in Hrun by done.
  injection Hrun as <-. unfold groups_of in Hlast.
  apply groups_upto_last in Hlast; [|lia|lia].
  assert (Z.of_nat (length sentences) `mod` chunk_size self
          = Z.of_nat (length sentences mod Z.to_nat (chunk_size self))) as Hmod.
  { rewrite Nat2Z.inj_mod. by rewrite Z2Nat.id by lia. }
  rewrite Hlast.
  destruct (decide (length sentences mod Z.to_nat (chunk_size self) = 0)%nat),
    (decide (Z.of_nat (length sentences) `mod` chunk_size self = 0)); lia.
Qed.

(** X4.  A text with at least one sentence and no more sentences than the
    chunk size gives exactly one chunk: all its sentences joined by single
    blanks. *)
Theorem short_text_is_one_chunk (self : TextProcessor) (text : string) :
  sent_tokenize text ≠ [] →
  Z.of_nat (length (sent_tokenize text)) ≤ chunk_size self →
  chunks_of self text = Returns [py_join " " (sent_tokenize text)].
Proof.
  intros Hne Hlen. unfold chunks_of.
  destruct (sent_tokenize text) as [|x l] eqn:Hs; [done|].
  rewrite sentence_slices_positive by (simpl in Hlen; lia).
  unfold groups_of. cbn [length groups_upto].
  rewrite take_ge, drop_ge, groups_upto_nil by (simpl in *; lia). done.
Qed.

(** ** More on file_parser.py *)

Lemma traces_only_get : traces_only get.
Proof. intros w. exists (Returns w), []. unfold get. by rewrite add_trace_nil. Qed.

Lemma traces_only_parse_path path : traces_only (parse_path path).
Proof.
  unfold parse_path. apply traces_only_bind.
  - unfold FileParser_init, _get_parser, get_parser.
    apply traces_only_bind; [|auto with traces].
    apply traces_only_bind; [apply traces_only_get|intros w0].
    destruct (decide (parsers w0 !! last_dot_segment path = None));
      [auto with traces|].
    apply traces_only_bind; [apply traces_only_get|intros w1].
    destruct (parsers w1 !! last_dot_segment path); auto with traces.
  - intros self. unfold FileParser_parse, os_path_exists.
    apply traces_only_bind.
    + apply traces_only_bind; [auto with traces|intros _].
      apply traces_only_bind; [apply traces_only_get|auto with traces].
    + intros found. destruct (negb found);
        [auto with traces|apply traces_only_parse].
Qed.

(** X5.  Registering a parser class for an extension makes [FileParser]
    resolve every path with that extension to that class, leaves the
    resolution of paths with another extension as it was, and touches
    neither the file system nor the database; registering again for the
    same extension replaces the class. *)
Theorem registered_parser_is_resolved (extension : string)
    (cls cls' : parser_class) (path : string) (w : world vector) :
  let w1 := (register_parser extension cls w).2 in
  let w2 := (register_parser extension cls' w1).2 in
  (register_parser extension cls w).1 = Returns tt
  ∧ get_parser extension w1 = (Returns cls, w1)
  ∧ (last_dot_segment path = extension →
       FileParser_init path w1
       = (Returns {| filepath := path; parser := cls |}, w1))
  ∧ (last_dot_segment path ≠ extension →
       (FileParser_init path w1).1 = (FileParser_init path w).1)
  ∧ get_parser extension w2 = (Returns cls', w2)
  ∧ fs w1 = fs w ∧ db w1 = db w ∧ trace w1 = trace w.
Proof.
  intros w1 w2. split_and!; try done.
  - unfold get_parser. run. by rewrite lookup_insert_eq.
  - intros <-. apply FileParser_init_registered. simpl.
    by rewrite lookup_insert_eq.
  - intros Hne.
    assert (parsers w1 !! last_dot_segment path
            = parsers w !! last_dot_segment path) as Hsame
      by (simpl; by rewrite lookup_insert_ne).
    destruct (parsers w !! last_dot_segment path) as [c|] eqn:Hc.
    + by rewrite !(FileParser_init_registered _ c) by done.
    + by rewrite !FileParser_init_unregistered by done.
  - unfold get_parser. run. by rewrite lookup_insert_eq.
Qed.

(** X6.  After the body of the module has run, a path whose extension is
    [txt] gets a [TxtParser] and one whose extension is [pdf] a
    [PdfParser]; when nothing else was registered before, every other
    extension (another spelling such as [PDF] too, the lookup compares the
    strings) makes the constructor raise [ValueError]. *)
Theorem module_registers_txt_and_pdf (path : string) (w : world vector) :
  let w1 := (file_parser_import w).2 in
  (last_dot_segment path = "txt" →
     FileParser_init path w1
     = (Returns {| filepath := path; parser := TxtParser |}, w1))
  ∧ (last_dot_segment path = "pdf" →
       FileParser_init path w1
       = (Returns {| filepath := path; parser := PdfParser |}, w1))
  ∧ (parsers w = ∅ → last_dot_segment path ∉ ["txt"; "pdf"] →
       FileParser_init path w1
       = (Raises (ValueError ("Unsupported file extension: "
                              +:+ last_dot_segment path)), w1)).
Proof.
  intros w1. split_and!.
  - intros Hext. apply FileParser_init_registered. rewrite Hext. simpl.
    rewrite lookup_insert_ne by done. by rewrite lookup_insert_eq.
  - intros Hext. apply FileParser_init_registered. rewrite Hext. simpl.
    by rewrite lookup_insert_eq.
  - intros Hempty Hnot. apply FileParser_init_unregistered. simpl.
    rewrite Hempty. apply not_elem_of_cons in Hnot as [Htxt Hnot].
    apply not_elem_of_cons in Hnot as [Hpdf _].
    by rewrite !lookup_insert_ne, lookup_empty by done.
Qed.

(** X7.  For a path that resolves to [TxtParser] and at which something
    exists, [FileParser(path).parse()] asks whether the path exists, opens
    it once for reading, and returns the decoded content of the file as it
    is; when the content cannot be decoded, or the path is a folder, it
    returns ["Error reading text file"] instead of raising. *)
Theorem txt_file_is_returned_verbatim (path : string) (entry : node)
    (w : world vector) :
  parsers w !! last_dot_segment path = Some TxtParser →
  fs w !! path = Some entry →
  parse_path path w
  = (Returns match entry with
             | RegularFile data =>
                 match text_decode data with
                 | Returns t => t
                 | Raises _ => "Error reading text file"
                 end
             | Directory => "Error reading text file"
             end,
     add_trace [EvPathExists path; EvOpen path "r"] w).
Proof.
  intros Hcls Hentry. unfold parse_path. unfold bind at 1.
  rewrite (FileParser_init_registered _ TxtParser) by done.
  rewrite FileParser_parse_present by (simpl; by rewrite Hentry).
  simpl. unfold TxtParser_parse, open_read. run. rewrite Hentry.
  destruct entry as [data|].
  - destruct (text_decode data); f_equal; same_world.
  - f_equal; same_world.
Qed.

(** X8.  [FileParser(path).parse()] only reads: whatever it returns or
    raises, the file system, the database and its session, the registry,
    the scheduled tasks and the count of embedding requests are as before,
    and the calls made before are still the beginning of the trace. *)
Theorem parsing_only_reads (path : string) (w : world vector) :
  let w' := (parse_path path w).2 in
  fs w' = fs w ∧ db w' = db w ∧ parsers w' = parsers w
  ∧ background_tasks w' = background_tasks w
  ∧ api_calls w' = api_calls w
  ∧ ∃ evs, trace w' = trace w ++ evs.
Proof.
  destruct (traces_only_parse_path path w) as (r & evs & Hrun).
  rewrite Hrun. simpl. split_and!; try done. by exists evs.
Qed.

Lemma pdf_pages_loop_failing_page filepath data before :
  Forall (λ page, ∃ t, extract_text page = Returns t) before →
  ∀ page after e page_num content (w : world vector),
    fs w !! filepath = Some (RegularFile data) →
    extract_text page = Raises e →
    pdf_pages_loop filepath page_num (before ++ page :: after) content w
    = (Raises e,
       add_trace (pages_events filepath page_num before
                    ++ [EvExtractText (page_num + length before)]) w).
Proof.
  induction 1 as [|p before [t Ht] _ IH];
    intros page after e page_num content w Hfs Hpage.
  - cbn [app pdf_pages_loop pages_events length]. run. rewrite Hpage.
    by rewrite Nat.add_0_r.
  - cbn [app pdf_pages_loop pages_events length].
    unfold page_events, direct_text. rewrite Ht.
    unfold bind at 1. unfold log, modify.
    unfold bind at 1. unfold lift at 1.
    unfold bind at 1.
    destruct (decide (t = EmptyString)) as [->|Hne].
    + rewrite (_ocr_page_file _ _ data) by done.
      rewrite (IH page after e) by done. rewrite add_trace_add_trace.
      f_equal. unfold add_trace, set_trace. simpl.
      rewrite <- !app_assoc. simpl. by rewrite Nat.add_succ_r.
    + unfold ret at 1. rewrite (IH page after e) by done.
      f_equal. unfold add_trace, set_trace. simpl.
      rewrite <- !app_assoc. simpl. by rewrite Nat.add_succ_r.
Qed.

(** X9.  When [page.extract_text()] raises on some page of a PDF that
    opened, the whole extraction gives ["Error processing PDF file"]: the
    text of the pages before it is not returned, and no call is made on the
    pages after it. *)
Theorem failing_page_aborts_document filepath data reader before page after e
    (w : world vector) :
  fs w !! filepath = Some (RegularFile data) →
  PdfReader data = Returns reader →
  (is_encrypted reader = true → decrypt reader = Returns tt) →
  pages reader = Returns (before ++ page :: after) →
  Forall (λ page, ∃ t, extract_text page = Returns t) before →
  extract_text page = Raises e →
  PdfParser_parse filepath w
  = (Returns "Error processing PDF file",
     add_trace (EvOpen filepath "rb" :: decrypt_events reader
                  ++ pages_events filepath 0 before
                  ++ [EvExtractText (length before)]) w).
Proof.
  intros Hfs Hreader Hdec Hpages Hbefore Hpage.
  unfold PdfParser_parse, try_except.
  unfold bind at 1. rewrite (open_read_file _ _ data) by done.
  unfold bind at 1. unfold lift at 1. rewrite Hreader.
  unfold bind at 1. unfold decrypt_events.
  destruct (is_encrypted reader).
  - rewrite Hdec by done. run. rewrite Hpages.
    rewrite (pdf_pages_loop_failing_page _ data before Hbefore page after e)
      by done.
    unfold ret. f_equal. same_world.
  - run. rewrite Hpages.
    rewrite (pdf_pages_loop_failing_page _ data before Hbefore page after e)
      by done.
    unfold ret. f_equal. same_world.
Qed.

(** ** More on the session *)

Lemma primary_keys_new_file objs (d : db_state vector) name text :
  primary_keys (files_seq d) (file_chunks_seq d) (objs ++ [new_File name text])
    !! length objs
  = Some (files_seq (flushed objs d)).
Proof.
  revert d. induction objs as [|obj objs IH]; intros d; [done|].
  destruct obj as [n t|fid t v]; cbn [app primary_keys length lookup list_lookup].
  - exact (IH (flush_one d (new_File n t))).
  - exact (IH (flush_one d (new_FileChunk fid t v))).
Qed.

Lemma flushed_new_file objs (d : db_state vector) name text :
  flushed (objs ++ [new_File name text]) d
  = flush_one (flushed objs d) (new_File name text).
Proof. unfold flushed. by rewrite fold_left_app. Qed.

Lemma flushed_set_session_new f objs (d : db_state vector) :
  flushed objs (set_session_new f d) = set_session_new f (flushed objs d).
Proof.
  revert d. induction objs as [|obj objs IH]; intros d; [done|].
  unfold flushed in *. cbn [fold_left]. rewrite <- IH. by destruct obj.
Qed.

Lemma flush_one_keys_fresh (d : db_state vector) obj :
  keys_fresh d → keys_fresh (flush_one d obj).
Proof.
  intros (Hf & Hc & Hfd & Hcd). unfold keys_fresh.
  destruct obj as [n t|fid t v];
    cbn [flush_one files file_chunks files_seq file_chunks_seq].
  - split_and!; try done.
    + apply Forall_app. split.
      * eapply Forall_impl; [exact Hf|]. simpl. intros; lia.
      * constructor; [simpl; lia|constructor].
    + rewrite fmap_app. apply NoDup_app. split_and!; [done| |].
      * intros k Hk [->|Hin%elem_of_nil]%elem_of_cons; [|done].
        apply list_elem_of_fmap in Hk as (f & Hid & Hin).
        eapply Forall_forall in Hf; [|exact Hin]. simpl in Hid. lia.
      * apply NoDup_singleton.
  - split_and!; try done.
    + apply Forall_app. split.
      * eapply Forall_impl; [exact Hc|]. simpl. intros; lia.
      * constructor; [simpl; lia|constructor].
    + rewrite fmap_app. apply NoDup_app. split_and!; [done| |].
      * intros k Hk [->|Hin%elem_of_nil]%elem_of_cons; [|done].
        apply list_elem_of_fmap in Hk as (c & Hid & Hin).
        eapply Forall_forall in Hc; [|exact Hin]. simpl in Hid. lia.
      * apply NoDup_singleton.
Qed.

Lemma flushed_keys_fresh objs (d : db_state vector) :
  keys_fresh d → keys_fresh (flushed objs d).
Proof.
  revert d. induction objs as [|obj objs IH]; intros d Hd; [done|].
  apply (IH (flush_one d obj)). by apply flush_one_keys_fresh.
Qed.

Lemma flush_keys_fresh (d : db_state vector) :
  keys_fresh d → keys_fresh (flush d).
Proof.
  intros Hd. pose proof (flushed_keys_fresh (session_new d) d Hd) as Hfl.
  unfold flush. fold (flushed (session_new d) d).
  destruct Hfl as (? & ? & ? & ?). by split_and!.
Qed.

(** ** More on background_tasks.py *)

Lemma embed_loop_returns self chunks :
  ∀ w w' : world vector,
    for_each chunks (embed_and_add self) w = (Returns tt, w') →
    trace w' = trace w ++ chunk_events chunks
    ∧ api_calls w' = (api_calls w + length chunks)%nat
    ∧ fs w' = fs w ∧ parsers w' = parsers w
    ∧ background_tasks w' = background_tasks w.
Proof.
  induction chunks as [|c chunks IH]; intros w w' Hrun.
  - injection Hrun as <-. split_and!; try done; try (simpl; lia).
    unfold chunk_events. simpl. by rewrite app_nil_r.
  - cbn [for_each] in Hrun. unfold bind at 1 in Hrun.
    unfold embed_and_add at 1, embeddings_create, db_add in Hrun.
    revert Hrun. run.
    destruct (embedding_service (api_calls w) c) as [v|e]; [|done].
    intros Hrun. apply IH in Hrun as (Htr & Hcalls & Hfs & Hp & Hbg).
    simpl in *. split_and!; try done.
    + rewrite Htr. unfold chunk_events. cbn [mbind list_bind].
      fold (chunk_events chunks). change (mbind ?f chunks) with (chunk_events chunks).
      by rewrite <- !app_assoc.
    + lia.
Qed.

(** X10.  When [chunk_and_embed] returns, it has made one embedding request
    per chunk, in document order, each followed by the [db.add] of its
    chunk, and then a single commit; nothing is left pending in the
    session, and neither the file system nor the scheduled tasks have
    changed. *)
Theorem ingestion_requests_in_document_order self text (w w' : world vector) :
  chunk_and_embed self text w = (Returns tt, w') →
  ∃ chunks,
    chunks_of self text = Returns chunks
    ∧ trace w' = trace w ++ chunk_events chunks ++ [EvSessionCommit]
    ∧ api_calls w' = (api_calls w + length chunks)%nat
    ∧ session_new (db w') = []
    ∧ fs w' = fs w
    ∧ background_tasks w' = background_tasks w.
Proof.
  unfold chunk_and_embed. unfold bind at 1. unfold lift at 1.
  destruct (chunks_of self text) as [chunks|e]; [|done].
  unfold bind at 1.
  destruct (for_each chunks (embed_and_add self) w) as [[[]|e] w1] eqn:Hloop;
    [|done].
  apply embed_loop_returns in Hloop as (Htr & Hcalls & Hfs & Hp & Hbg).
  unfold db_commit. run. intros [= <-]. exists chunks. simpl.
  split_and!; try done. by rewrite Htr, <- app_assoc.
Qed.

(** X11.  [chunk_and_embed] with a chunk size of zero raises the
    [ValueError] of [range] before anything else has happened; with a
    negative chunk size it makes no embedding request and adds no chunk,
    but still commits the session and returns. *)
Theorem ingestion_with_nonpositive_chunk_size self text (w : world vector) :
  chunk_size self ≤ 0 →
  chunk_and_embed self text w
  = if decide (chunk_size self = 0)
    then (Raises (ValueError "range() arg 3 must not be zero"), w)
    else (Returns tt, set_db flush (add_trace [EvSessionCommit] w)).
Proof.
  intros HN. unfold chunk_and_embed, chunks_of, sentence_slices, py_range.
  destruct (Z.eqb_spec (chunk_size self) 0) as [Hz|Hnz].
  - by rewrite decide_True.
  - rewrite decide_False by done. unfold py_range_len.
    destruct (Z.ltb_spec 0 (chunk_size self)) as [|_]; [lia|].
    destruct (Z.ltb_spec (Z.of_nat (length (sent_tokenize text))) 0) as [|_];
      [lia|]. reflexivity.
Qed.

Lemma chunk_rows_file_id key fid cvs :
  Forall (λ c : FileChunk.t vector, FileChunk.file_id c = fid)
    (chunk_rows key fid cvs).
Proof.
  revert key. induction cvs as [|[c v] cvs IH]; intros key; simpl;
    constructor; [done|apply IH].
Qed.

Lemma chunk_and_embed_tables self text (w : world vector) :
  let w' := (chunk_and_embed self text w).2 in
  ∃ d1,
    files d1 = files (db w) ∧ file_chunks d1 = file_chunks (db w)
    ∧ files_seq d1 = files_seq (db w)
    ∧ file_chunks_seq d1 = file_chunks_seq (db w)
    ∧ (db w' = d1
       ∨ (db w' = flush d1
          ∧ ∃ cvs, session_new d1
                   = session_new (db w) ++ pending_chunks (file_id self) cvs)).
Proof.
  unfold chunk_and_embed, db_commit. run.
  destruct (chunks_of self text) as [chunks|e].
  - destruct (embed_loop self chunks w)
      as (r & w1 & Hloop & Hf & Hfc & Hfs & Hcs & _ & Hr).
    rewrite Hloop. exists (db w1). split_and!; try done.
    destruct r as [[]|e]; [|by left].
    right. destruct Hr as (vs & _ & Hnew). split; [done|]. by eexists.
  - exists (db w). split_and!; try done. by left.
Qed.

(** ** More on app.py *)

Lemma open_write_cases path data (w : world vector) :
  (∃ e, open_write path data w
        = (Raises e, add_trace [EvOpen path "wb+"] w))
  ∨ open_write path data w
    = (Returns tt,
       set_fs (insert path (RegularFile data))
         (add_trace [EvOpen path "wb+"] w)).
Proof.
  unfold open_write. run. destruct (fs w !! path) as [[old|]|].
  - by right.
  - left. by eexists.
  - destruct (decide (parent_dir path = EmptyString
                      ∨ fs w !! parent_dir path = Some Directory)).
    + by right.
    + left. by eexists.
Qed.

(** The four ways in which [upload_file] ends. *)
Lemma upload_file_cases filename uploaded (w : world vector) :
  let loc := os_path_join "sources" filename in
  ∃ r w',
    upload_file filename uploaded w = (r, w')
    ∧ (((last_dot_segment filename ∉ ["txt"; "pdf"])
        ∧ r = Raises (HTTPException 400 "File type not allowed") ∧ w' = w)
       ∨ (last_dot_segment filename ∈ ["txt"; "pdf"]
          ∧ r = Raises (HTTPException 500 "Error saving file")
          ∧ db w' = db w
          ∧ background_tasks w' = background_tasks w
          ∧ ∀ p, p ≠ "sources" → fs w' !! p = fs w !! p)
       ∨ (last_dot_segment filename ∈ ["txt"; "pdf"]
          ∧ is_Some (fs w !! loc)
          ∧ r = Raises (HTTPException 500 "Error saving file")
          ∧ (∃ text,
               pending_accepted
                 (set_session_new (λ l, l ++ [new_File filename text]) (db w))
               = false)
          ∧ db w' = set_session_new (λ _, []) (db w)
          ∧ background_tasks w' = background_tasks w
          ∧ fs w' !! loc = Some (RegularFile uploaded)
          ∧ ∀ p, p ≠ "sources" → p ≠ loc → fs w' !! p = fs w !! p)
       ∨ (last_dot_segment filename ∈ ["txt"; "pdf"]
          ∧ is_Some (fs w !! loc)
          ∧ r = Returns [("info", "File saved"); ("filename", filename)]
          ∧ ∃ text,
              pending_accepted
                (set_session_new (λ l, l ++ [new_File filename text]) (db w))
              = true
              ∧ db w'
              = flush (set_session_new (λ l, l ++ [new_File filename text]) (db w))
              ∧ background_tasks w'
                = background_tasks w
                  ++ [({| file_id := files_seq (flushed (session_new (db w)) (db w));
                          chunk_size := 2 |}, text)]
              ∧ fs w' !! loc = Some (RegularFile uploaded)
              ∧ ∀ p, p ≠ "sources" → p ≠ loc → fs w' !! p = fs w !! p)).
Proof.
  intros loc. unfold upload_file.
  destruct (decide (last_dot_segment filename ∉ ["txt"; "pdf"])) as [Hno|Hyes].
  { eexists _, _. split; [done|]. left. by split_and!. }
  apply dec_stable in Hyes. fold loc. unfold try_except.
  unfold bind at 1.
  destruct (os_makedirs_cases "sources" w)
    as [[e ->]|(w1 & -> & Hdb & Hparsers & Htasks & Hfs)].
  { eexists _, _. split; [done|]. right. left. by split_and!. }
  unfold bind at 1.
  destruct (parsers w1 !! last_dot_segment loc) as [cls|] eqn:Hcls.
  2:{ rewrite FileParser_init_unregistered by done.
      eexists _, _. split; [done|]. right. left. by split_and!. }
  rewrite (FileParser_init_registered _ cls) by done.
  unfold bind at 1.
  destruct (fs w1 !! loc) as [entry|] eqn:Hloc.
  2:{ rewrite (FileParser_parse_missing {| filepath := loc; parser := cls |})
        by done.
      eexists _, _. split; [done|]. right. left. by split_and!. }
  rewrite (FileParser_parse_present {| filepath := loc; parser := cls |})
    by (simpl; by rewrite Hloc).
  simpl filepath. simpl parser.
  destruct (parse_returns_and_traces cls loc (add_trace [EvPathExists loc] w1))
    as (text & evs & ->).
  rewrite add_trace_add_trace. unfold bind at 1.
  destruct (open_write_cases loc uploaded
              (add_trace ([EvPathExists loc] ++ evs) w1)) as [[e ->]|Hw];
    [|rewrite Hw; clear Hw].
  { eexists _, _. split; [done|]. right. left. by split_and!. }
  assert (is_Some (fs w !! loc)) as Hsome.
  { rewrite <- (Hfs loc) by apply os_path_join_sources_ne. by rewrite Hloc. }
  unfold db_add, db_commit_checked, db_commit, add_task. run.
  rewrite Hdb.
  destruct (pending_accepted
              (set_session_new (λ l, l ++ [new_File filename text]) (db w)))
    eqn:Hacc; simpl; rewrite ?Hdb.
  - rewrite primary_keys_new_file.
    eexists _, _. split; [done|]. right. right. right. simpl.
    split_and!; try done.
    exists text. split_and!.
    + done.
    + by rewrite Hdb.
    + by rewrite Htasks.
    + by rewrite lookup_insert_eq.
    + intros p Hp Hploc. rewrite lookup_insert_ne by done. by apply Hfs.
  - eexists _, _. split; [done|]. right. right. left. simpl.
    split_and!; try done.
    + by exists text.
    + rewrite Hdb. by destruct (db w).
    + by rewrite lookup_insert_eq.
    + intros p Hp Hploc. rewrite lookup_insert_ne by done. by apply Hfs.
Qed.


(** X13.  When [upload_file] returns, the name passed the gate and
    something existed at the destination before the call; the destination
    now holds the uploaded bytes and no path other than it and the folder
    has changed; the session has been committed and has nothing pending;
    the last row of [files] carries the name and the text, and the one task
    that has been scheduled carries the key of that row, the chunk size 2
    and the same text.  In a fresh session that row is the only change to
    the tables. *)
Theorem upload_success_postcondition filename uploaded resp (w w' : world vector) :
  upload_file filename uploaded w = (Returns resp, w') →
  let loc := os_path_join "sources" filename in
  resp = [("info", "File saved"); ("filename", filename)]
  ∧ last_dot_segment filename ∈ ["txt"; "pdf"]
  ∧ is_Some (fs w !! loc)
  ∧ fs w' !! loc = Some (RegularFile uploaded)
  ∧ (∀ p, p ≠ "sources" → p ≠ loc → fs w' !! p = fs w !! p)
  ∧ session_new (db w') = []
  ∧ ∃ key text,
      last (files (db w')) = Some (File.mk key filename text)
      ∧ background_tasks w'
        = background_tasks w ++ [({| file_id := key; chunk_size := 2 |}, text)]
      ∧ (session_new (db w) = [] →
           key = files_seq (db w)
           ∧ files (db w') = files (db w) ++ [File.mk key filename text]
           ∧ file_chunks (db w') = file_chunks (db w)).
Proof.
  intros Hrun loc.
  destruct (upload_file_cases filename uploaded w)
    as (r & w1 & Hcase
        & [(_ & -> & _)
          |[(_ & -> & _)
           |[(_ & _ & -> & _)
            |(Hyes & Hsome & -> & text & _ & Hdb & Htasks & Hloc & Hfs)]]]);
    rewrite Hcase in Hrun;
    [discriminate Hrun|discriminate Hrun|discriminate Hrun|].
  - injection Hrun as <- <-.
    split_and!; try done.
    { by rewrite Hdb. }
    exists (files_seq (flushed (session_new (db w)) (db w))), text.
    split_and!; [|done|].
    + rewrite Hdb. unfold flush. simpl.
      fold (flushed (session_new (db w) ++ [new_File filename text])
              (set_session_new (λ l, l ++ [new_File filename text]) (db w))).
      rewrite flushed_new_file, flushed_set_session_new. simpl.
      by rewrite last_snoc.
    + intros Hfresh. rewrite Hdb. unfold flush. simpl. rewrite Hfresh.
      by split_and!.
Qed.

(** X14.  The two operations that write to the database keep the primary
    keys of both tables below their serial counters and free of
    repetitions, whether they return or raise. *)
Theorem primary_keys_stay_unique filename uploaded self text (w : world vector) :
  keys_fresh (db w) →
  keys_fresh (db (upload_file filename uploaded w).2)
  ∧ keys_fresh (db (chunk_and_embed self text w).2).
Proof.
  intros Hfresh. split.
  - destruct (upload_file_cases filename uploaded w)
      as (r & w1 & Hcase
          & [(_ & _ & ->)
            |[(_ & _ & Hdb & _)
             |[(_ & _ & _ & _ & Hdb & _)|(_ & _ & _ & t & _ & Hdb & _)]]]);
      rewrite Hcase; simpl; [done|by rewrite Hdb|by rewrite Hdb|].
    rewrite Hdb. by apply flush_keys_fresh.
  - destruct (chunk_and_embed_tables self text w)
      as (d1 & Hf & Hc & Hfs & Hcs & Hcases).
    assert (keys_fresh d1) as Hd1.
    { unfold keys_fresh. by rewrite Hf, Hc, Hfs, Hcs. }
    destruct Hcases as [->|[-> _]]; [done|by apply flush_keys_fresh].
Qed.

(** X15.  After an upload that returned in a fresh session, running the
    ingestion that it scheduled leaves the table of files as the upload
    left it and only appends rows to the table of chunks, and every row it
    appends carries the key of the [File] row that the upload stored for
    this name and text. *)
Theorem scheduled_ingestion_references_stored_file filename uploaded resp
    (w w1 : world vector) :
  session_new (db w) = [] →
  upload_file filename uploaded w = (Returns resp, w1) →
  ∃ task text,
    background_tasks w1 = background_tasks w ++ [(task, text)]
    ∧ last (files (db w1)) = Some (File.mk (file_id task) filename text)
    ∧ let w2 := (chunk_and_embed task text w1).2 in
      files (db w2) = files (db w1)
      ∧ ∃ rows,
          file_chunks (db w2) = file_chunks (db w1) ++ rows
          ∧ Forall (λ c, FileChunk.file_id c = file_id task) rows.
Proof.
  intros Hfresh Hrun.
  destruct (upload_file_cases filename uploaded w)
    as (r & w' & Hcase
        & [(_ & -> & _)
          |[(_ & -> & _)
           |[(_ & _ & -> & _)|(_ & _ & -> & text & _ & Hdb & Htasks & _)]]]);
    rewrite Hcase in Hrun;
    [discriminate Hrun|discriminate Hrun|discriminate Hrun|].
  injection Hrun as _ <-.
  eexists _, text. split; [exact Htasks|]. split.
  { rewrite Hdb. unfold flush. simpl. rewrite Hfresh. simpl.
    by rewrite last_snoc. }
  intros w2.
  destruct (chunk_and_embed_tables
              {| file_id := files_seq (flushed (session_new (db w)) (db w));
                 chunk_size := 2 |} text w')
    as (d1 & Hf & Hc & Hfs & Hcs & Hcases).
  assert (session_new (db w') = []) as Hempty by by rewrite Hdb.
  fold w2 in Hcases. destruct Hcases as [->|[-> (cvs & Hnew)]].
  - split; [done|]. exists []. split; [by rewrite Hc, app_nil_r|constructor].
  - rewrite Hempty in Hnew. simpl in Hnew. unfold flush. rewrite Hnew.
    rewrite flush_pending_chunks. simpl. split; [done|].
    eexists. split; [by rewrite Hc|]. apply chunk_rows_file_id.
Qed.

(** X16.  The destination of an upload is inside the folder [sources] only
    for a relative name: for a name that starts with a slash,
    [os.path.join] returns the name itself, and an upload that returns has
    replaced the content of the file at that absolute path by the uploaded
    bytes. *)
Theorem absolute_name_leaves_the_folder filename uploaded resp
    (w w' : world vector) :
  os_path_isabs filename = true →
  upload_file filename uploaded w = (Returns resp, w') →
  os_path_join "sources" filename = filename
  ∧ is_Some (fs w !! filename)
  ∧ fs w' !! filename = Some (RegularFile uploaded).
Proof.
  intros Habs Hrun.
  assert (os_path_join "sources" filename = filename) as Hloc
    by (unfold os_path_join; by rewrite Habs).
  destruct (upload_file_cases filename uploaded w)
    as (r & w1 & Hcase
        & [(_ & -> & _)
          |[(_ & -> & _)
           |[(_ & _ & -> & _)|(_ & Hsome & -> & text & _ & _ & _ & Hfs & _)]]]);
    rewrite Hcase in Hrun;
    [discriminate Hrun|discriminate Hrun|discriminate Hrun|].
  injection Hrun as _ <-. rewrite Hloc in Hsome, Hfs. by split_and!.
Qed.

(** ** app.py: retrieval *)

(** The distances are totally ordered, and PostgreSQL answers the
    statement as SQL promises. *)
Context {dist_le_po : PartialOrder dist_le} {dist_le_total : Total dist_le}.
Hypothesis db_scalars_spec :
  ∀ q file_id table,
    similar_chunks_query file_id q table (db_scalars q file_id table).

Local Instance by_distance_trans q : Transitive (by_distance q).
Proof. intros a b c. unfold by_distance. apply transitivity. Qed.

Lemma similar_chunks_query_rows file_id q table rows :
  similar_chunks_query file_id q table rows →
  length rows = Nat.min 10 (length (owned_by file_id table))
  ∧ Forall (λ c, c ∈ table ∧ FileChunk.file_id c = file_id) rows
  ∧ StronglySorted (by_distance q) rows.
Proof.
  intros (ordered & Hperm & Hsorted & ->). split_and!.
  - rewrite length_take. unfold owned_by. by rewrite <- Hperm.
  - apply Forall_forall. intros c Hc%(subseteq_take 10 ordered).
    rewrite Hperm in Hc. by apply list_elem_of_filter in Hc as [? ?].
  - apply Sorted_StronglySorted in Hsorted; [|apply _].
    rewrite <- (take_drop 10 ordered) in Hsorted.
    by apply StronglySorted_app_1_l in Hsorted.
Qed.

(** C2.  When the embedding request for the question succeeds,
    [find_similar_chunks] returns the formatted rows of a list that has at
    most ten rows, all of them rows of the table owned by the given
    document, in order of non-decreasing distance to the embedding of the
    question.  It has ten rows or all the rows the document owns,
    whichever is less: none for a document without chunks (an empty list,
    no error), three for a document with three chunks. *)
Theorem retrieve_contract file_id question q (w : world vector) :
  embedding_service (api_calls w) question = Returns q →
  ∃ rows w',
    find_similar_chunks file_id question w = (Returns (formatted <$> rows), w')
    ∧ db w' = db w
    ∧ (length rows ≤ 10)%nat
    ∧ Forall (λ c, c ∈ file_chunks (db w) ∧ FileChunk.file_id c = file_id) rows
    ∧ StronglySorted (λ a b, dist_le (distance_to q a) (distance_to q b)) rows
    ∧ length rows = Nat.min 10 (length (owned_by file_id (file_chunks (db w))))
    ∧ (owned_by file_id (file_chunks (db w)) = [] → rows = [])
    ∧ (length (owned_by file_id (file_chunks (db w))) = 3%nat →
         length rows = 3%nat).
Proof.
  intros Hq.
  destruct (similar_chunks_query_rows file_id q (file_chunks (db w)) _
              (db_scalars_spec q file_id (file_chunks (db w))))
    as (Hlen & Hrows & Hsorted).
  exists (db_scalars q file_id (file_chunks (db w))). eexists.
  split.
  { unfold find_similar_chunks, embeddings_create. run. by rewrite Hq. }
  split_and!; try done.
  - lia.
  - intros Hnone. rewrite Hnone in Hlen. by apply nil_length_inv.
  - intros Hthree. rewrite Hthree in Hlen. exact Hlen.
Qed.

(** C3 (as the code has it).  The statement orders by the distance alone,
    so the code does not fix the order of chunks at equal distance.  Any
    two answers to the same query on the same table show the same sequence
    of distances; they are the same answer when no two chunks of the
    document are at the same distance from the query. *)
Theorem ranking_determined_up_to_ties file_id q table rows1 rows2 :
  similar_chunks_query file_id q table rows1 →
  similar_chunks_query file_id q table rows2 →
  distance_to q <$> rows1 = distance_to q <$> rows2
  ∧ ((∀ a b, a ∈ owned_by file_id table → b ∈ owned_by file_id table →
             distance_to q a = distance_to q b → a = b) →
     rows1 = rows2).
Proof.
  intros (o1 & Hp1 & Hs1 & ->) (o2 & Hp2 & Hs2 & ->). split.
  - rewrite !fmap_take. f_equal.
    apply (Sorted_unique dist_le).
    + by apply (Sorted_fmap _ (by_distance q) dist_le).
    + by apply (Sorted_fmap _ (by_distance q) dist_le).
    + by rewrite Hp1, Hp2.
  - intros Hno_ties. f_equal.
    apply (StronglySorted_unique_strong (by_distance q)).
    + intros a b Ha Hb Hab Hba. apply Hno_ties.
      * unfold owned_by. by rewrite <- Hp1.
      * unfold owned_by. by rewrite <- Hp2.
      * by apply (anti_symm dist_le).
    + apply Sorted_StronglySorted; [apply _|done].
    + apply Sorted_StronglySorted; [apply _|done].
    + by rewrite Hp1, Hp2.
Qed.

End program.

(** * The statements on concrete libraries and data *)

Lemma sample_closer_spec q file_id table ordered :
  ordered ≡ₚ Sample.selected file_id table →
  Sorted (Sample.closer q) ordered →
  similar_chunks_query Sample.l2_distance Z.le file_id q table (take 10 ordered).
Proof. intros Hperm Hsorted. by exists ordered. Qed.

Local Instance sample_closer_total q : Total (Sample.closer q).
Proof. intros a b. unfold Sample.closer. apply total, _. Qed.

Local Instance sample_farther_total q : Total (flip (Sample.closer q)).
Proof. intros a b. destruct (total (Sample.closer q) a b); [by right|by left]. Qed.

Lemma sample_db_scalars_spec q file_id table :
  similar_chunks_query Sample.l2_distance Z.le file_id q table
    (Sample.db_scalars q file_id table).
Proof.
  apply sample_closer_spec.
  - apply merge_sort_Permutation.
  - apply (Sorted_merge_sort _).
Qed.

Lemma sample_db_scalars_backward_spec q file_id table :
  similar_chunks_query Sample.l2_distance Z.le file_id q table
    (Sample.db_scalars_backward q file_id table).
Proof.
  apply sample_closer_spec.
  - rewrite reverse_Permutation. apply merge_sort_Permutation.
  - apply (Sorted_reverse (flip (Sample.closer q))).
    apply (Sorted_merge_sort _).
Qed.

Lemma sample_scan3_readable :
  readable_pdf Sample.PdfReader (Sample.world_of Sample.no_rows)
    "sources/scan3.pdf" "scan3"
    {| is_encrypted := false; decrypt := Returns tt;
       pages := Returns [ {| extract_text := Returns "Intro. " |};
                          {| extract_text := Returns "" |};
                          {| extract_text := Returns "" |} ] |}
    [ {| extract_text := Returns "Intro. " |};
      {| extract_text := Returns "" |};
      {| extract_text := Returns "" |} ].
Proof.
  split_and!; [by vm_compute|by vm_compute|done|done|].
  repeat constructor; by eexists.
Defined.

Lemma chunker_matches_reference_witness :
  0 < 2
  ∧ chunks_of Sample.sent_tokenize {| file_id := 1; chunk_size := 2 |}
      "Cats are mammals. Dogs bark loudly. Birds can fly. Fish live in water."
    = Returns ["Cats are mammals. Dogs bark loudly.";
               "Birds can fly. Fish live in water."].
Proof.
  split; [lia|].
  destruct (chunker_matches_reference Sample.sent_tokenize
              {| file_id := 1; chunk_size := 2 |}
              "Cats are mammals. Dogs bark loudly. Birds can fly. Fish live in water."
              ltac:(simpl; lia)) as [Hrun _].
  exact Hrun.
Defined.

(** The claim C9 fails on the code: with a chunk size of -1 the chunker does
    not fail, it returns no chunk. *)
Lemma chunker_negative_size_no_error :
  ¬ (∀ (self : TextProcessor) (text : string),
       chunk_size self ≤ 0 →
       ∃ e, chunks_of Sample.sent_tokenize self text = Raises e).
Proof.
  intros Hclaim.
  destruct (Hclaim {| file_id := 1; chunk_size := -1 |} "Cats are mammals."
              ltac:(simpl; lia)) as [e He].
  vm_compute in He. discriminate He.
Qed.

Lemma chunker_nonpositive_size_witness :
  -1 ≤ 0
  ∧ chunks_of Sample.sent_tokenize {| file_id := 1; chunk_size := -1 |}
      "Cats are mammals. Dogs bark loudly."
    = Returns []
  ∧ chunks_of Sample.sent_tokenize {| file_id := 1; chunk_size := 0 |}
      "Cats are mammals. Dogs bark loudly."
    = Raises (ValueError "range() arg 3 must not be zero").
Proof.
  split; [lia|]. split.
  - exact (chunker_nonpositive_size Sample.sent_tokenize
             {| file_id := 1; chunk_size := -1 |}
             "Cats are mammals. Dogs bark loudly." ltac:(simpl; lia)).
  - exact (chunker_nonpositive_size Sample.sent_tokenize
             {| file_id := 1; chunk_size := 0 |}
             "Cats are mammals. Dogs bark loudly." ltac:(simpl; lia)).
Defined.

Lemma pdf_pages_in_order_witness :
  ∃ w',
    PdfParser_parse Sample.PdfReader Sample.image_to_string
      "sources/scan3.pdf" (Sample.world_of Sample.no_rows)
    = (Returns "Intro. Scanned text.Error in OCR processing", w')
    ∧ trace w'
      = [EvOpen "sources/scan3.pdf" "rb";
         EvExtractText 0;
         EvExtractText 1; EvOcrPage 1; EvOpen "sources/scan3.pdf" "rb";
         EvExtractText 2; EvOcrPage 2; EvOpen "sources/scan3.pdf" "rb"].
Proof.
  destruct (pdf_pages_in_order Sample.PdfReader Sample.image_to_string
              _ _ _ _ _ sample_scan3_readable) as (w' & Hrun & Htrace & _).
  exists w'. split; [exact Hrun|exact Htrace].
Defined.

(** The claim C6 fails on the code: the only page of this scan has no text
    layer and its OCR fails, and the document text is not empty. *)
Lemma ocr_failure_leaves_placeholder :
  ¬ (∀ (w : world (list Z)) filepath data reader page e,
       readable_pdf Sample.PdfReader w filepath data reader [page] →
       extract_text page = Returns EmptyString →
       Sample.image_to_string data 0 = Raises e →
       (PdfParser_parse Sample.PdfReader Sample.image_to_string filepath w).1
       = Returns EmptyString).
Proof.
  intros Hclaim.
  specialize (Hclaim (Sample.world_of Sample.no_rows) "sources/scan1.pdf"
                "scan1"
                {| is_encrypted := false; decrypt := Returns tt;
                   pages := Returns [ {| extract_text := Returns "" |} ] |}
                {| extract_text := Returns "" |}
                (LibraryError "TesseractError")).
  assert ((PdfParser_parse Sample.PdfReader Sample.image_to_string
             "sources/scan1.pdf" (Sample.world_of Sample.no_rows)).1
          = Returns "Error in OCR processing") as Hrun by by vm_compute.
  rewrite Hrun in Hclaim. discriminate Hclaim.
  - split_and!; [by vm_compute|by vm_compute|done|done|].
    repeat constructor; by eexists.
  - done.
  - by vm_compute.
Qed.

Lemma ocr_failure_degrades_page_witness :
  Sample.image_to_string "scan3" 2 = Raises (LibraryError "TesseractError")
  ∧ (_ocr_page Sample.image_to_string "sources/scan3.pdf" 2
       (Sample.world_of Sample.no_rows)).1
    = Returns "Error in OCR processing"
  ∧ ∃ w',
      PdfParser_parse Sample.PdfReader Sample.image_to_string
        "sources/scan3.pdf" (Sample.world_of Sample.no_rows)
      = (Returns ("Intro. Scanned text." +:+ "Error in OCR processing" +:+ ""),
         w').
Proof.
  split; [reflexivity|].
  destruct (ocr_failure_degrades_page Sample.PdfReader Sample.image_to_string
              "sources/scan3.pdf" "scan3" 2 (LibraryError "TesseractError")
              (Sample.world_of Sample.no_rows) eq_refl eq_refl)
    as (Hocr & _ & Hdoc).
  split; [by rewrite Hocr|].
  destruct (Hdoc _
              [ {| extract_text := Returns "Intro. " |};
                {| extract_text := Returns "" |} ]
              {| extract_text := Returns "" |} []
              eq_refl sample_scan3_readable eq_refl) as (w' & Hrun).
  exists w'. exact Hrun.
Defined.

Lemma pdf_failures_degrade_witness :
  (PdfParser_parse Sample.PdfReader Sample.image_to_string
     "sources/locked.pdf" (Sample.world_of Sample.no_rows)).1
  = Returns "Unable to decrypt PDF"
  ∧ (PdfParser_parse Sample.PdfReader Sample.image_to_string
       "sources/broken.pdf" (Sample.world_of Sample.no_rows)).1
    = Returns "Error processing PDF file"
  ∧ (PdfParser_parse Sample.PdfReader Sample.image_to_string
       "sources/absent.pdf" (Sample.world_of Sample.no_rows)).1
    = Returns "Error processing PDF file".
Proof.
  split_and!.
  - destruct (pdf_failures_degrade Sample.PdfReader Sample.image_to_string
                "sources/locked.pdf" (Sample.world_of Sample.no_rows))
      as (_ & Hlocked & _).
    rewrite (Hlocked "locked" _ (LibraryError "PdfReadError")
               eq_refl eq_refl eq_refl eq_refl).
    reflexivity.
  - destruct (pdf_failures_degrade Sample.PdfReader Sample.image_to_string
                "sources/broken.pdf" (Sample.world_of Sample.no_rows))
      as (_ & _ & _ & Hbroken & _).
    rewrite (Hbroken "garbage" (LibraryError "PdfReadError") eq_refl eq_refl).
    reflexivity.
  - destruct (pdf_failures_degrade Sample.PdfReader Sample.image_to_string
                "sources/absent.pdf" (Sample.world_of Sample.no_rows))
      as (_ & _ & Habsent & _).
    rewrite Habsent; [reflexivity|].
    intros data. vm_compute. discriminate.
Defined.

Lemma parse_fails_only_structurally_witness :
  parse_path Sample.text_decode Sample.PdfReader Sample.image_to_string
    "report.docx" (Sample.world_of Sample.no_rows)
  = (Raises (ValueError "Unsupported file extension: docx"),
     Sample.world_of Sample.no_rows)
  ∧ (parse_path Sample.text_decode Sample.PdfReader Sample.image_to_string
       "sources/absent.txt" (Sample.world_of Sample.no_rows)).1
    = Raises (FileNotFoundError "File not found: sources/absent.txt")
  ∧ ∃ text evs,
      parse_path Sample.text_decode Sample.PdfReader Sample.image_to_string
        "sources/broken.pdf" (Sample.world_of Sample.no_rows)
      = (Returns text,
         add_trace (EvPathExists "sources/broken.pdf" :: evs)
           (Sample.world_of Sample.no_rows)).
Proof.
  split_and!.
  - exact (parse_fails_only_structurally Sample.text_decode Sample.PdfReader
             Sample.image_to_string "report.docx"
             (Sample.world_of Sample.no_rows)).
  - pose proof (parse_fails_only_structurally Sample.text_decode
                  Sample.PdfReader Sample.image_to_string "sources/absent.txt"
                  (Sample.world_of Sample.no_rows)) as Hmissing.
    change (parse_path Sample.text_decode Sample.PdfReader
              Sample.image_to_string "sources/absent.txt"
              (Sample.world_of Sample.no_rows)
            = (Raises (FileNotFoundError "File not found: sources/absent.txt"),
               add_trace [EvPathExists "sources/absent.txt"]
                 (Sample.world_of Sample.no_rows))) in Hmissing.
    rewrite Hmissing. reflexivity.
  - pose proof (parse_fails_only_structurally Sample.text_decode
                  Sample.PdfReader Sample.image_to_string "sources/broken.pdf"
                  (Sample.world_of Sample.no_rows)) as Hpresent.
    exact (proj2 Hpresent).
Defined.

Lemma ingestion_all_or_nothing_witness :
  session_new (db (Sample.world_of Sample.some_rows)) = []
  ∧ chunks_of Sample.sent_tokenize {| file_id := 7; chunk_size := 2 |}
      "Cats are mammals. Dogs bark loudly. Birds can fly. Fish live in water."
    = Returns ["Cats are mammals. Dogs bark loudly.";
               "Birds can fly. Fish live in water."]
  ∧ Sample.embedding_service 1 "Birds can fly. Fish live in water."
    = Raises (LibraryError "RateLimitError")
  ∧ ∃ e w',
      chunk_and_embed Sample.sent_tokenize Sample.embedding_service
        {| file_id := 7; chunk_size := 2 |}
        "Cats are mammals. Dogs bark loudly. Birds can fly. Fish live in water."
        (Sample.world_of Sample.some_rows)
      = (Raises e, w')
      ∧ file_chunks (db w') = file_chunks (db (Sample.world_of Sample.some_rows)).
Proof.
  split_and!; [reflexivity..|].
  destruct (ingestion_all_or_nothing Sample.sent_tokenize Sample.embedding_service
              {| file_id := 7; chunk_size := 2 |}
              "Cats are mammals. Dogs bark loudly. Birds can fly. Fish live in water."
              _ (Sample.world_of Sample.some_rows) eq_refl eq_refl)
    as (r & w' & Hrun & _ & Hfails).
  destruct Hfails as (e & -> & Hsame).
  - exists 1%nat, "Birds can fly. Fish live in water.",
      (LibraryError "RateLimitError"). split; reflexivity.
  - exists e, w'. split; [exact Hrun|exact Hsame].
Defined.

Lemma upload_parses_before_write_witness :
  last_dot_segment "notes.txt" ∈ ["txt"; "pdf"]
  ∧ last_dot_segment "fresh.txt" ∈ ["txt"; "pdf"]
  ∧ plain_name "notes.txt" ∧ plain_name "fresh.txt"
  ∧ (∃ w',
       upload_file Sample.text_decode Sample.PdfReader Sample.image_to_string
         "fresh.txt" "Fresh text." (Sample.world_of Sample.some_rows)
       = (Raises (HTTPException 500 "Error saving file"), w')
       ∧ db w' = Sample.some_rows)
  ∧ (∃ w',
       upload_file Sample.text_decode Sample.PdfReader Sample.image_to_string
         "notes.txt" "New notes." (Sample.world_of Sample.some_rows)
       = (Returns [("info", "File saved"); ("filename", "notes.txt")], w')
       ∧ files (db w')
         = files Sample.some_rows ++ [File.mk 9 "notes.txt" "Old notes."]
       ∧ fs w' !! "sources/notes.txt" = Some (RegularFile "New notes.")).
Proof.
  assert (last_dot_segment "notes.txt" ∈ ["txt"; "pdf"]) as Hnotes
    by (change ("txt" ∈ ["txt"; "pdf"]); constructor).
  assert (last_dot_segment "fresh.txt" ∈ ["txt"; "pdf"]) as Hfresh
    by (change ("txt" ∈ ["txt"; "pdf"]); constructor).
  split_and!; [exact Hnotes|exact Hfresh|reflexivity|reflexivity| |].
  - destruct (upload_parses_before_write Sample.text_decode Sample.PdfReader
                Sample.image_to_string "fresh.txt"
                (Sample.world_of Sample.some_rows) Hfresh eq_refl)
      as [Hnone _].
    destruct (Hnone eq_refl "Fresh text.") as (w' & Hrun & Hdb & _).
    exists w'. split; [exact Hrun|exact Hdb].
  - destruct (upload_parses_before_write Sample.text_decode Sample.PdfReader
                Sample.image_to_string "notes.txt"
                (Sample.world_of Sample.some_rows) Hnotes eq_refl)
      as [_ Hstale].
    destruct (Hstale "Old notes." TxtParser eq_refl eq_refl eq_refl eq_refl)
      as (text & evs & _ & Htext & Hup).
    pose proof (Htext eq_refl "Old notes." eq_refl) as Heq.
    rewrite Heq in Hup.
    destruct (Hup "New notes.") as (r & w' & Hrun & Hfs & _ & Hcase).
    change (files_row_accepted "notes.txt" "Old notes.") with true in Hcase.
    destruct Hcase as (Hr & Hfiles & _).
    exists w'. split_and!.
    + rewrite Hrun, Hr. reflexivity.
    + rewrite Hfiles. reflexivity.
    + rewrite Hfs. apply lookup_insert_eq.
Defined.

Lemma retrieve_contract_witness :
  Sample.embedding_service 0 "q" = Returns [1; 0]
  ∧ length (owned_by 7 (file_chunks Sample.some_rows)) = 3%nat
  ∧ ∃ rows w',
      find_similar_chunks Sample.embedding_service Sample.db_scalars 7 "q"
        (Sample.world_of Sample.some_rows)
      = (Returns (formatted <$> rows), w')
      ∧ length rows = 3%nat
      ∧ Forall (λ c : FileChunk.t (list Z), FileChunk.file_id c = 7) rows.
Proof.
  split_and!; [reflexivity..|].
  destruct (retrieve_contract Sample.embedding_service Sample.l2_distance Z.le
              Sample.db_scalars sample_db_scalars_spec 7 "q" [1; 0]
              (Sample.world_of Sample.some_rows) eq_refl)
    as (rows & w' & Hrun & _ & _ & Howned & _ & _ & _ & Hthree).
  exists rows, w'. split_and!; [exact Hrun|exact (Hthree eq_refl)|].
  eapply Forall_impl; [exact Howned|]. by intros c [_ Hc].
Defined.

(** The claim C3 fails on the code: chunks 1 and 2 of file 7 are at the same
    distance from the query, the answer that lists chunk 2 before chunk 1 is
    an answer to the statement as much as the one that lists chunk 1 first,
    and the handler returns either with the executor that produces it. *)
Lemma ties_not_broken_by_chunk_id :
  ¬ (∀ file_id q table rows,
       similar_chunks_query Sample.l2_distance Z.le file_id q table rows →
       ties_by_chunk_id Sample.l2_distance q rows)
  ∧ ¬ (∀ file_id q table rows1 rows2,
         similar_chunks_query Sample.l2_distance Z.le file_id q table rows1 →
         similar_chunks_query Sample.l2_distance Z.le file_id q table rows2 →
         rows1 = rows2)
  ∧ (find_similar_chunks Sample.embedding_service Sample.db_scalars 7 "q"
       (Sample.world_of Sample.some_rows)).1
    = Returns [(4, "C."); (1, "A."); (2, "B.")]
  ∧ (find_similar_chunks Sample.embedding_service Sample.db_scalars_backward 7 "q"
       (Sample.world_of Sample.some_rows)).1
    = Returns [(4, "C."); (2, "B."); (1, "A.")].
Proof.
  split_and!.
  - intros Hclaim.
    pose proof (Hclaim 7 [1; 0] (file_chunks Sample.some_rows) _
                  (sample_db_scalars_backward_spec _ _ _)) as Hties.
    specialize (Hties 1%nat 2%nat (FileChunk.mk 2 7 "B." [3; 0])
                  (FileChunk.mk 1 7 "A." [3; 0])
                  ltac:(lia) eq_refl eq_refl eq_refl).
    simpl in Hties. lia.
  - intros Hclaim.
    pose proof (Hclaim 7 [1; 0] (file_chunks Sample.some_rows) _ _
                  (sample_db_scalars_spec _ _ _)
                  (sample_db_scalars_backward_spec _ _ _)) as Heq.
    vm_compute in Heq. discriminate Heq.
  - by vm_compute.
  - by vm_compute.
Qed.

Lemma ranking_determined_up_to_ties_witness :
  similar_chunks_query Sample.l2_distance Z.le 7 [1; 0]
    (file_chunks Sample.some_rows)
    (Sample.db_scalars [1; 0] 7 (file_chunks Sample.some_rows))
  ∧ similar_chunks_query Sample.l2_distance Z.le 7 [1; 0]
      (file_chunks Sample.some_rows)
      (Sample.db_scalars_backward [1; 0] 7 (file_chunks Sample.some_rows))
  ∧ distance_to Sample.l2_distance [1; 0]
      <$> Sample.db_scalars [1; 0] 7 (file_chunks Sample.some_rows)
    = distance_to Sample.l2_distance [1; 0]
      <$> Sample.db_scalars_backward [1; 0] 7 (file_chunks Sample.some_rows).
Proof.
  split_and!; [apply sample_db_scalars_spec|apply sample_db_scalars_backward_spec|].
  destruct (ranking_determined_up_to_ties Sample.l2_distance Z.le 7 [1; 0]
              (file_chunks Sample.some_rows) _ _
              (sample_db_scalars_spec _ _ _)
              (sample_db_scalars_backward_spec _ _ _)) as [Hsame _].
  exact Hsame.
Defined.

(** * The further statements on concrete data *)

Lemma last_dot_segment_is_final_segment_witness :
  ("."%char ∉ list_ascii_of_string "pdf")
  ∧ last_dot_segment "a.b.pdf" = "pdf".
Proof.
  assert ("."%char ∉ list_ascii_of_string "pdf") as Hpdf.
  { intros Hin. apply elem_of_cons in Hin as [Hin|Hin]; [discriminate Hin|].
    apply elem_of_cons in Hin as [Hin|Hin]; [discriminate Hin|].
    apply elem_of_cons in Hin as [Hin|Hin]; [discriminate Hin|].
    by apply elem_of_nil in Hin. }
  split; [exact Hpdf|].
  exact (proj1 (last_dot_segment_is_final_segment "a.b" "pdf" "" Hpdf)).
Defined.

Lemma gate_and_parser_agree_on_extension_witness :
  last_dot_segment "notes.v2.txt" ∈ ["txt"; "pdf"]
  ∧ last_dot_segment (os_path_join "sources" "notes.v2.txt") = "txt".
Proof.
  assert (last_dot_segment "notes.v2.txt" ∈ ["txt"; "pdf"]) as Hgate
    by (change ("txt" ∈ ["txt"; "pdf"]); constructor).
  split; [exact Hgate|].
  assert ("."%char ∈ list_ascii_of_string "notes.v2.txt") as Hdot
    by (do 5 apply list_elem_of_further; apply list_elem_of_here).
  destruct (gate_and_parser_agree_on_extension "notes.v2.txt"
              (Sample.world_of Sample.no_rows) Hdot Hgate eq_refl eq_refl)
    as [Hsame _].
  exact Hsame.
Defined.

Lemma last_chunk_holds_the_remainder_witness :
  0 < 2
  ∧ sentence_slices {| file_id := 1; chunk_size := 2 |} ["A."; "B."; "C."]
    = Returns [["A."; "B."]; ["C."]]
  ∧ Z.of_nat (length ["C."]) = 3 `mod` 2.
Proof.
  split_and!; [lia|reflexivity|].
  exact (last_chunk_holds_the_remainder {| file_id := 1; chunk_size := 2 |}
           ["A."; "B."; "C."] [["A."; "B."]; ["C."]] ["C."]
           ltac:(simpl; lia) eq_refl eq_refl).
Defined.

Lemma short_text_is_one_chunk_witness :
  Sample.sent_tokenize "Cats are mammals. Dogs bark loudly." ≠ []
  ∧ chunks_of Sample.sent_tokenize {| file_id := 1; chunk_size := 5 |}
      "Cats are mammals. Dogs bark loudly."
    = Returns ["Cats are mammals. Dogs bark loudly."].
Proof.
  assert (Sample.sent_tokenize "Cats are mammals. Dogs bark loudly." ≠ [])
    as Hne by (vm_compute; discriminate).
  split; [exact Hne|].
  exact (short_text_is_one_chunk Sample.sent_tokenize
           {| file_id := 1; chunk_size := 5 |}
           "Cats are mammals. Dogs bark loudly." Hne
           ltac:(vm_compute; discriminate)).
Defined.

Lemma registered_parser_is_resolved_witness :
  FileParser_init "sources/paper.md"
    (register_parser "md" TxtParser Sample2.before_import).2
  = (Returns {| filepath := "sources/paper.md"; parser := TxtParser |},
     (register_parser "md" TxtParser Sample2.before_import).2).
Proof.
  destruct (registered_parser_is_resolved "md" TxtParser PdfParser
              "sources/paper.md" Sample2.before_import)
    as (_ & _ & Hresolve & _).
  exact (Hresolve eq_refl).
Defined.

Lemma module_registers_txt_and_pdf_witness :
  (FileParser_init "sources/REPORT.PDF"
     (file_parser_import Sample2.before_import).2).1
  = Raises (ValueError "Unsupported file extension: PDF").
Proof.
  destruct (module_registers_txt_and_pdf "sources/REPORT.PDF"
              Sample2.before_import) as (_ & _ & Hother).
  rewrite Hother; [reflexivity|reflexivity|].
  change (last_dot_segment "sources/REPORT.PDF") with "PDF".
  intros Hin. apply elem_of_cons in Hin as [Hin|Hin]; [discriminate Hin|].
  apply elem_of_cons in Hin as [Hin|Hin]; [discriminate Hin|].
  by apply elem_of_nil in Hin.
Defined.

Lemma txt_file_is_returned_verbatim_witness :
  (parse_path Sample.text_decode Sample.PdfReader Sample.image_to_string
     "sources/notes.txt" (Sample.world_of Sample.no_rows)).1
  = Returns "Old notes."
  ∧ (parse_path Sample.text_decode Sample.PdfReader Sample.image_to_string
       "sources/folder.txt" (Sample2.world_of Sample.no_rows)).1
    = Returns "Error reading text file".
Proof.
  split.
  - rewrite (txt_file_is_returned_verbatim Sample.text_decode Sample.PdfReader
               Sample.image_to_string "sources/notes.txt"
               (RegularFile "Old notes.") (Sample.world_of Sample.no_rows)
               eq_refl eq_refl).
    reflexivity.
  - rewrite (txt_file_is_returned_verbatim Sample.text_decode Sample.PdfReader
               Sample.image_to_string "sources/folder.txt" Directory
               (Sample2.world_of Sample.no_rows) eq_refl eq_refl).
    reflexivity.
Defined.

Lemma failing_page_aborts_document_witness :
  (PdfParser_parse Sample2.PdfReader Sample.image_to_string
     "sources/torn.pdf" (Sample2.world_of Sample.no_rows)).1
  = Returns "Error processing PDF file"
  ∧ trace (PdfParser_parse Sample2.PdfReader Sample.image_to_string
             "sources/torn.pdf" (Sample2.world_of Sample.no_rows)).2
    = [EvOpen "sources/torn.pdf" "rb"; EvExtractText 0; EvExtractText 1].
Proof.
  pose proof (failing_page_aborts_document Sample2.PdfReader
                Sample.image_to_string "sources/torn.pdf" "torn" _
                [ {| extract_text := Returns "First page. " |} ]
                {| extract_text := Raises (LibraryError "PdfReadError") |}
                [ {| extract_text := Returns "Third page." |} ]
                (LibraryError "PdfReadError")
                (Sample2.world_of Sample.no_rows)
                eq_refl eq_refl (λ _, eq_refl) eq_refl
                ltac:(repeat constructor; by eexists) eq_refl) as Hrun.
  rewrite Hrun. split; reflexivity.
Defined.

Lemma ingestion_requests_in_document_order_witness :
  ∃ w',
    chunk_and_embed Sample.sent_tokenize Sample.embedding_service
      {| file_id := 7; chunk_size := 2 |} "Cats are mammals. Dogs bark loudly."
      (Sample.world_of Sample.some_rows)
    = (Returns tt, w')
    ∧ trace w' = [EvEmbeddingsCreate "Cats are mammals. Dogs bark loudly.";
                  EvSessionAdd; EvSessionCommit].
Proof.
  eexists. split; [by vm_compute|].
  destruct (ingestion_requests_in_document_order Sample.sent_tokenize
              Sample.embedding_service {| file_id := 7; chunk_size := 2 |}
              "Cats are mammals. Dogs bark loudly."
              (Sample.world_of Sample.some_rows) _
              ltac:(by vm_compute))
    as (chunks & Hchunks & Htrace & _).
  injection Hchunks as <-. exact Htrace.
Defined.

Lemma ingestion_with_nonpositive_chunk_size_witness :
  -3 ≤ 0
  ∧ (chunk_and_embed Sample.sent_tokenize Sample.embedding_service
       {| file_id := 7; chunk_size := -3 |} "Cats are mammals. Dogs bark loudly."
       (Sample.world_of Sample.some_rows)).1
    = Returns tt.
Proof.
  split; [lia|].
  rewrite (ingestion_with_nonpositive_chunk_size Sample.sent_tokenize
             Sample.embedding_service {| file_id := 7; chunk_size := -3 |}
             "Cats are mammals. Dogs bark loudly."
             (Sample.world_of Sample.some_rows) ltac:(simpl; lia)).
  reflexivity.
Defined.


Lemma upload_success_postcondition_witness :
  ∃ w',
    upload_file Sample.text_decode Sample.PdfReader Sample.image_to_string
      "notes.txt" "New notes." (Sample.world_of Sample.some_rows)
    = (Returns [("info", "File saved"); ("filename", "notes.txt")], w')
    ∧ fs w' !! "sources/notes.txt" = Some (RegularFile "New notes.")
    ∧ session_new (db w') = [].
Proof.
  eexists. split; [by vm_compute|].
  destruct (upload_success_postcondition Sample.text_decode Sample.PdfReader
              Sample.image_to_string "notes.txt" "New notes." _
              (Sample.world_of Sample.some_rows) _ ltac:(by vm_compute))
    as (_ & _ & _ & Hfs & _ & Hsession & _).
  split; [exact Hfs|exact Hsession].
Defined.

Lemma sample_keys_fresh : keys_fresh Sample.some_rows.
Proof.
  split_and!.
  - repeat constructor.
  - repeat constructor.
  - apply (bool_decide_unpack _). by vm_compute.
  - apply (bool_decide_unpack _). by vm_compute.
Defined.

Lemma primary_keys_stay_unique_witness :
  keys_fresh Sample.some_rows
  ∧ keys_fresh
      (db (upload_file Sample.text_decode Sample.PdfReader
             Sample.image_to_string "notes.txt" "New notes."
             (Sample.world_of Sample.some_rows)).2).
Proof.
  split; [exact sample_keys_fresh|].
  exact (proj1 (primary_keys_stay_unique Sample.sent_tokenize
                  Sample.embedding_service Sample.text_decode Sample.PdfReader
                  Sample.image_to_string "notes.txt" "New notes."
                  {| file_id := 7; chunk_size := 2 |} ""
                  (Sample.world_of Sample.some_rows) sample_keys_fresh)).
Defined.

Lemma scheduled_ingestion_references_stored_file_witness :
  session_new (db (Sample.world_of Sample.some_rows)) = []
  ∧ ∃ w1 task text,
      upload_file Sample.text_decode Sample.PdfReader Sample.image_to_string
        "notes.txt" "New notes." (Sample.world_of Sample.some_rows)
      = (Returns [("info", "File saved"); ("filename", "notes.txt")], w1)
      ∧ background_tasks w1 = [(task, text)]
      ∧ last (files (db w1)) = Some (File.mk (file_id task) "notes.txt" text)
      ∧ ∃ rows,
          file_chunks (db (chunk_and_embed Sample.sent_tokenize
                             Sample.embedding_service task text w1).2)
          = file_chunks (db w1) ++ rows
          ∧ Forall (λ c : FileChunk.t (list Z),
                      FileChunk.file_id c = file_id task) rows.
Proof.
  split; [reflexivity|].
  eexists. 
  destruct (scheduled_ingestion_references_stored_file Sample.sent_tokenize
              Sample.embedding_service Sample.text_decode Sample.PdfReader
              Sample.image_to_string "notes.txt" "New notes." _
              (Sample.world_of Sample.some_rows) _ eq_refl
              ltac:(by vm_compute))
    as (task & text & Htasks & Hlast & _ & rows & Hrows & Hall).
  exists task, text. split_and!; [by vm_compute|exact Htasks|exact Hlast|].
  exists rows. split; [exact Hrows|exact Hall].
Defined.

Lemma absolute_name_leaves_the_folder_witness :
  os_path_isabs "/srv/motd.txt" = true
  ∧ ∃ w',
      upload_file Sample.text_decode Sample.PdfReader Sample.image_to_string
        "/srv/motd.txt" "Gone." (Sample2.world_of Sample.no_rows)
      = (Returns [("info", "File saved"); ("filename", "/srv/motd.txt")], w')
      ∧ fs w' !! "/srv/motd.txt" = Some (RegularFile "Gone.").
Proof.
  split; [reflexivity|]. eexists. split; [by vm_compute|].
  destruct (absolute_name_leaves_the_folder Sample.text_decode Sample.PdfReader
              Sample.image_to_string "/srv/motd.txt" "Gone." _
              (Sample2.world_of Sample.no_rows) _ eq_refl ltac:(by vm_compute))
    as (_ & _ & Hfs).
  exact Hfs.
Defined.
